(** * Loggers of ai8x-training ([tblogger.py])

    A shallow embedding of the three logger front ends
    ([TensorBoardLogger], [PythonLogger], [CsvLogger]) and the
    properties their specification states about them.

    Conventions of the embedding:
    - Python integers are [Z]; a Python float is the rational [Q] it
      denotes. The scalars handed to TensorBoard are computed exactly and
      stated up to [Qeq]; where [CsvLogger] takes an integer from a float
      product the rounding decides the cell, and the float operations
      round as binary64 does ([round64]);
    - a [dict] that is iterated ([state_dict()], the stats mapping) is the
      list of its items in iteration order;
    - a logging method is a computation over a [World] holding the model,
      the record of calls made on the TensorBoard [SummaryWriter], the
      Python log and the file system; it ends normally or raises, and in
      both cases the effects performed so far stay in the world;
    - "written" means that the call was made on the writer (or the row
      handed to the CSV writer) and accepted by it: [add_scalar] and
      [add_histogram] take what they are given, [add_scalars] reads its
      values through [.items()] and raises on a list. *)

From Stdlib Require Import ZArith QArith List String Ascii Bool Lia.
From Stdlib Require Import DecimalString.
From Stdlib Require Floats.
From stdpp Require Import gmap strings.
Import ListNotations.

#[local] Open Scope Z_scope.

(** ** Tensors and modules (the part of [torch] the loggers read) *)

Record Tensor := mkTensor {
  shape : list nat;   (* [param.size()] *)
  data : list Q       (* the elements, row-major *)
}.

(** [param.dim()] *)
Definition dim (t : Tensor) : nat := length (shape t).

(** [torch.numel(param)], [param.numel()] *)
Definition numel (t : Tensor) : Z :=
  Z.of_nat (fold_right Nat.mul 1%nat (shape t)).

(** [t.view(-1).tolist()] *)
Definition view_flat_tolist (t : Tensor) : list Q := data t.

(** A [torch.nn.Parameter] as yielded by [named_parameters()]: a tensor
    and its [.grad], which is [None] until a backward pass has run. *)
Record nn_Parameter := mkParameter {
  p_value : Tensor;
  p_grad : option Tensor
}.

(** A [torch.nn.Module]: its own parameters and persistent buffers (in
    state-dict order) and its named child modules. *)
#[warnings="-register-all"]
Inductive nn_Module :=
| Mod (own : list (string * Tensor)) (children : list (string * nn_Module)).

Definition own_state (m : nn_Module) : list (string * Tensor) :=
  match m with Mod own _ => own end.

Definition children (m : nn_Module) : list (string * nn_Module) :=
  match m with Mod _ ch => ch end.

(** [module.state_dict(prefix=prefix)]: own entries, then the children's
    under [prefix + name + '.']. *)
Fixpoint state_dict (prefix : string) (m : nn_Module) : list (string * Tensor) :=
  match m with
  | Mod own ch =>
      map (fun nt => (prefix +:+ fst nt, snd nt)) own
      ++ flat_map (fun nc => state_dict (prefix +:+ fst nc +:+ ".") (snd nc)) ch
  end.

(** [module.named_modules(prefix=prefix)]: the module itself, then every
    descendant in pre-order, names joined by ['.']. *)
Fixpoint named_modules (prefix : string) (m : nn_Module) : list (string * nn_Module) :=
  match m with
  | Mod _ ch =>
      (prefix, m)
      :: flat_map (fun nc =>
           named_modules (prefix +:+ (if String.eqb prefix "" then "" else ".") +:+ fst nc)
                         (snd nc)) ch
  end.

(** ** Python strings *)

(** [s.replace(old, new)] for one-character [old] and [new]. *)
Fixpoint replace (old new : ascii) (s : string) : string :=
  match s with
  | EmptyString => EmptyString
  | String c rest =>
      String (if Ascii.eqb c old then new else c) (replace old new rest)
  end.

(** [sub in s] *)
Fixpoint contains (sub s : string) : bool :=
  String.prefix sub s
  || match s with
     | EmptyString => false
     | String _ rest => contains sub rest
     end.

(** [sep.join(parts)] *)
Fixpoint join (sep : string) (parts : list string) : string :=
  match parts with
  | [] => ""
  | [p] => p
  | p :: rest => p +:+ sep +:+ join sep rest
  end.

(** [int(x)] on a float: truncation towards zero. *)
Definition py_int (x : Q) : Z := Z.quot (Qnum x) (Z.pos (Qden x)).

(** ** Python floats *)

(** The integer nearest to [n / d], ties to the even one ([0 <= n], [0 < d]). *)
Definition round_half_even (n d : Z) : Z :=
  let q := n / d in
  match (2 * (n mod d)) ?= d with
  | Lt => q
  | Gt => q + 1
  | Eq => if Z.even q then q else q + 1
  end.

(** The exponent [e] with [2^e <= n / d < 2^(e+1)] ([0 < n], [0 < d]). *)
Definition floor_log2 (n d : Z) : Z :=
  let e0 := Z.log2 n - Z.log2 d in
  if (if 0 <=? e0 then d * 2 ^ e0 <=? n else d <=? n * 2 ^ (- e0))
  then e0
  else e0 - 1.

(** The binary64 value nearest to [q], ties to even: 53 significant bits,
    no bit below [2^-1074]. Results beyond the largest float (where Python
    gives [inf]) are not modelled: the exponent is unbounded above. *)
Definition round64 (q : Q) : Q :=
  let n := Qnum q in
  let d := Z.pos (Qden q) in
  if n =? 0 then 0%Q
  else
    let a := Z.abs n in
    let shift := Z.min (52 - floor_log2 a d) 1074 in
    let m := if 0 <=? shift then round_half_even (a * 2 ^ shift) d
             else round_half_even a (d * 2 ^ (- shift)) in
    if 0 <=? shift then Qmake (Z.sgn n * m) (Z.to_pos (2 ^ shift))
    else inject_Z (Z.sgn n * m * 2 ^ (- shift)).

(** [float(n)] *)
Definition float_of_int (n : Z) : Q := round64 (inject_Z n).

(** [x * y], [x - y] and [x / y] on floats. *)
Definition float_mul (x y : Q) : Q := round64 (x * y).

Definition float_sub (x y : Q) : Q := round64 (x - y).

Definition float_div (x y : Q) : Q := round64 (x / y).

(** The rational a finite kernel float denotes, to compare [round64] with
    the binary64 arithmetic of the machine. *)
Definition float_value (f : PrimFloat.float) : Q :=
  match FloatOps.Prim2SF f with
  | SpecFloat.S754_finite s m e =>
      let v := if 0 <=? e then inject_Z (Z.pos m * 2 ^ e)
               else Qmake (Z.pos m) (Z.to_pos (2 ^ (- e))) in
      if s then (- v)%Q else v
  | _ => 0%Q
  end.

(** ** The world the loggers act on *)

(** Exceptions a logging call can end with. *)
Inductive exn :=
| ZeroDivisionError
| KeyError (key : string)
| AttributeError
| OSError.

Inductive result (A : Type) :=
| Ok (a : A)
| Raise (e : exn).
Arguments Ok {A} a.
Arguments Raise {A} e.

(** One call on the [SummaryWriter], with its arguments. *)
Inductive tb_call :=
| add_scalar (tag : string) (scalar_value : Q) (global_step : Z)
| add_scalars (main_tag : string) (values : list Q) (global_step : Z)
| add_histogram (tag : string) (values : Tensor) (global_step : Z).

(** A CSV cell as handed to [csv.writer.writerow]. *)
Inductive cell :=
| CStr (s : string)
| CInt (z : Z)
| CFloat (x : Q).

Definition row := list cell.

(** The file system: the rows of each CSV file, the handles currently
    open (by path, most recent first), the paths that cannot be opened
    for writing, and how many more rows the device accepts ([None]: no
    limit), so that a write can fail at any point of a call. *)
Record FileSystem := mkFS {
  fs_files : gmap string (list row);
  fs_open : list string;
  fs_denied : list string;
  fs_room : option nat
}.

Record World := mkWorld {
  w_model : nn_Module;        (* the model, owned by the training loop *)
  w_writer : list tb_call;    (* calls on [self.writer], oldest first *)
  w_pylog : list string;      (* messages given to [self.pylogger.info] *)
  w_fs : FileSystem
}.

(** A computation: from a world to an outcome and the world it leaves. *)
Definition M (A : Type) : Type := World -> result A * World.

Definition ret {A} (a : A) : M A := fun w => (Ok a, w).

Definition raise {A} (e : exn) : M A := fun w => (Raise e, w).

Definition bind {A B} (m : M A) (k : A -> M B) : M B :=
  fun w =>
    match m w with
    | (Ok a, w') => k a w'
    | (Raise e, w') => (Raise e, w')
    end.

Declare Scope py_scope.
Delimit Scope py_scope with py.
Notation "x <- m ;; k" := (bind m (fun x => k))
  (at level 100, m at next level, right associativity) : py_scope.
Notation "m ;; k" := (bind m (fun _ => k))
  (at level 100, right associativity) : py_scope.
#[local] Open Scope py_scope.

(** [for x in l: body(x)] *)
Fixpoint for_each {A} (l : list A) (body : A -> M unit) : M unit :=
  match l with
  | [] => ret tt
  | x :: rest => body x ;; for_each rest body
  end.

(** [for x in l:] with local variables [acc] updated by the body. *)
Fixpoint for_each_acc {A S} (l : list A) (acc : S) (body : S -> A -> M S) : M S :=
  match l with
  | [] => ret acc
  | x :: rest => acc' <- body acc x ;; for_each_acc rest acc' body
  end.

(** [try: body except KeyError: handler] *)
Definition try_except_KeyError {A} (body handler : M A) : M A :=
  fun w =>
    match body w with
    | (Raise (KeyError _), w') => handler w'
    | other => other
    end.

(** [model.state_dict().items()] *)
Definition model_state_dict : M (list (string * Tensor)) :=
  fun w => (Ok (state_dict "" (w_model w)), w).

(** [model.named_modules()] *)
Definition model_named_modules : M (list (string * nn_Module)) :=
  fun w => (Ok (named_modules "" (w_model w)), w).

(** [sd[key]] *)
Fixpoint getitem (sd : list (string * Tensor)) (key : string) : M Tensor :=
  match sd with
  | [] => raise (KeyError key)
  | (k, t) :: rest => if String.eqb k key then ret t else getitem rest key
  end.

(** A call on [self.writer]. *)
Definition writer_call (c : tb_call) : M unit :=
  fun w =>
    (Ok tt, mkWorld (w_model w) (w_writer w ++ [c]) (w_pylog w) (w_fs w)).

(** [self.writer.add_scalars(main_tag, values, global_step)] with a list
    for [values], as both calls of [tblogger.py] make it:
    [SummaryWriter.add_scalars] starts by reading [values.items()], which a
    list does not have, and so raises before it writes anything. *)
Definition writer_add_scalars (main_tag : string) (values : list Q)
    (global_step : Z) : M unit :=
  raise AttributeError.

(** [self.pylogger.info(msg)] *)
Definition pylogger_info (msg : string) : M unit :=
  fun w =>
    (Ok tt, mkWorld (w_model w) (w_writer w) (w_pylog w ++ [msg]) (w_fs w)).

(** [a / b] on Python numbers. *)
Definition py_div (a : Q) (b : Z) : M Q :=
  if Z.eqb b 0 then raise ZeroDivisionError else ret (a / inject_Z b)%Q.

(** ** Files *)

Definition set_fs (fs : FileSystem) (w : World) : World :=
  mkWorld (w_model w) (w_writer w) (w_pylog w) fs.

(** Drops the most recent handle on [path]. *)
Fixpoint release (path : string) (handles : list string) : list string :=
  match handles with
  | [] => []
  | h :: rest => if String.eqb h path then rest else h :: release path rest
  end.

(** [open(fname, 'w')]: fails on a path that cannot be written, otherwise
    creates or truncates the file and hands out a handle. *)
Definition open_w (fname : string) : M string :=
  fun w =>
    let fs := w_fs w in
    if existsb (String.eqb fname) (fs_denied fs) then (Raise OSError, w)
    else (Ok fname,
          set_fs (mkFS (<[fname := []]> (fs_files fs)) (fname :: fs_open fs)
                       (fs_denied fs) (fs_room fs)) w).

(** [csv_file.close()] *)
Definition close (handle : string) : M unit :=
  fun w =>
    let fs := w_fs w in
    (Ok tt,
     set_fs (mkFS (fs_files fs) (release handle (fs_open fs))
                  (fs_denied fs) (fs_room fs)) w).

(** [with open(fname, 'w') as csv_file: body]: the handle is closed when
    the body ends, normally or by an exception, which is then re-raised. *)
Definition with_open {A} (fname : string) (body : string -> M A) : M A :=
  fun w =>
    match open_w fname w with
    | (Raise e, w1) => (Raise e, w1)
    | (Ok csv_file, w1) =>
        match body csv_file w1 with
        | (r, w2) => (r, snd (close csv_file w2))
        end
    end.

(** [csv.writer(csv_file).writerow(r)]: appends the row, or raises when
    the device accepts no more. *)
Definition writerow (csv_file : string) (r : row) : M unit :=
  fun w =>
    let fs := w_fs w in
    match fs_room fs with
    | Some O => (Raise OSError, w)
    | room =>
        (Ok tt,
         set_fs (mkFS (<[csv_file := default [] (fs_files fs !! csv_file) ++ [r]]>
                         (fs_files fs))
                      (fs_open fs) (fs_denied fs) (Nat.pred <$> room)) w)
    end.

(** ** What [tblogger.py] imports *)

(** The functions of [distiller] (and Python's float formatting) that the
    loggers call. Their code is not part of [tblogger.py]: the loggers are
    modelled over any choice of them, each taken as a pure function that
    returns a value (a float as the rational it denotes). *)
Class Externals := {
  density : Tensor -> Q;            (* [distiller.utils.density] *)
  sparsity : Tensor -> Q;           (* [distiller.utils.sparsity] *)
  sparsity_2D : Tensor -> Q;        (* [distiller.utils.sparsity_2D] *)
  size_to_str : list nat -> string; (* [distiller.utils.size_to_str] *)
  norm_filters : Tensor -> Tensor;  (* [distiller.utils.norm_filters] *)
  to_np : Tensor -> Tensor;         (* [distiller.utils.to_np] *)
  (* [distiller.weights_sparsity_tbl_summary(model,
      return_total_sparsity=True, param_dims=dims)]: [str(t)] and [total] *)
  weights_sparsity_tbl_summary : nn_Module -> list nat -> string * Q;
  get_fname : string -> string;     (* [distiller_logger.CsvLogger.get_fname] *)
  format_0_2f : Q -> string         (* ['{:0.2f}'.format(x)] *)
}.

(** Modelled from the spec: [distiller.has_children], which is not in
    [tblogger.py]; a leaf sub-module is "one with no child sub-modules". *)
Definition has_children (m : nn_Module) : bool :=
  match children m with
  | [] => false
  | _ :: _ => true
  end.

(** [to_np(value.grad)]: [to_np] reads the [.data] of its argument, which
    [None] does not have. *)
Definition to_np_opt `{Externals} (v : option Tensor) : M Tensor :=
  match v with
  | Some t => ret (to_np t)
  | None => raise AttributeError
  end.

(** [n in dims] *)
Definition dim_in (n : nat) (dims : list nat) : bool := existsb (Nat.eqb n) dims.

(** [list(a)] on a one-dimensional array. *)
Definition py_list (a : Tensor) : list Q := data a.

Definition newline : string := String (ascii_of_nat 10) "".

(** ** [class TensorBoardLogger] *)

Module TensorBoardLogger.

(** The attributes set by [__init__] besides the writer. *)
Record self := mkSelf {
  log_gradients : bool;
  logged_params : list string
}.

(** [__init__]: "Hard-code these preferences for now". *)
Definition init : self :=
  {| log_gradients := false; logged_params := ["weight"] |}.

Section Methods.
Context `{Externals}.

Definition log_training_progress
    (stats_dict : string * list (string * Q))
    (epoch completed total : Z) (freq : Z) : M unit :=
  let total_steps (total epoch completed : Z) := total * epoch + completed in
  let prefix := fst stats_dict in
  let stats_dict := snd stats_dict in
  for_each stats_dict (fun tv =>
    let tag := fst tv in
    let value := snd tv in
    writer_call (add_scalar (prefix +:+ replace " " "_" tag) value
                            (total_steps total epoch completed))).

Definition log_activation_statistic
    (phase stat_name : string) (activation_stats : list (string * Q))
    (epoch : Z) : M unit :=
  let group := stat_name +:+ "/activations/" +:+ phase +:+ "/" in
  for_each activation_stats (fun tv =>
    writer_call (add_scalar (group +:+ fst tv) (snd tv) epoch)).

(** One turn of the loop of [log_weights_sparsity]; [acc] is
    [(params_size, sparse_params_size)]. *)
Definition sparsity_step (epoch : Z) (acc : Z * Q) (np : string * Tensor)
  : M (Z * Q) :=
  let params_size := fst acc in
  let sparse_params_size := snd acc in
  let name := fst np in
  let param := snd np in
  if dim_in (dim param) [2; 3; 4]%nat then
    let _density := density param in
    let params_size := params_size + numel param in
    let sparse_params_size :=
      (sparse_params_size + inject_Z (numel param) * _density)%Q in
    writer_call (add_scalar ("sparsity/weights/" +:+ name)
                            (sparsity param * 100)%Q epoch) ;;
    writer_call (add_scalar ("sparsity-2D/weights/" +:+ name)
                            (sparsity_2D param * 100)%Q epoch) ;;
    ret (params_size, sparse_params_size)
  else ret (params_size, sparse_params_size).

(** The [model] argument is the model of the world. *)
Definition log_weights_sparsity (epoch : Z) : M unit :=
  items <- model_state_dict ;;
  acc <- for_each_acc items (0, 0%Q) (sparsity_step epoch) ;;
  ratio <- py_div (snd acc) (fst acc) ;;
  writer_call (add_scalar "sparsity/weights/total" (100 * (1 - ratio))%Q epoch).

Definition log_weights_filter_magnitude (epoch : Z) (multi_graphs : bool)
  : M unit :=
  items <- model_state_dict ;;
  for_each items (fun np =>
    let name := fst np in
    let param := snd np in
    if dim_in (dim param) [4%nat] then
      writer_add_scalars ("magnitude/filters/" +:+ name)
                         (py_list (to_np (norm_filters param))) epoch
    else ret tt).

Definition log_weights_distribution (s : self)
    (named_params : option (list (string * nn_Parameter)))
    (steps_completed : Z) : M unit :=
  match named_params with
  | None => ret tt
  | Some named_params =>
      for_each named_params (fun tv =>
        let value := snd tv in
        let tag := replace "." "/" (fst tv) in
        (if existsb (fun substring => contains substring tag) (logged_params s)
         then writer_call (add_histogram tag (to_np (p_value value)) steps_completed)
         else ret tt) ;;
        (if log_gradients s
         then g <- to_np_opt (p_grad value) ;;
              writer_call (add_histogram (tag +:+ "/grad") g steps_completed)
         else ret tt))
  end.

(** The inner loop of [log_model_buffers] over [buffer_names]. *)
Definition collect_values (sd : list (string * Tensor))
    (buffer_names : list string) : M (list Q) :=
  for_each_acc buffer_names [] (fun values buf_name =>
    try_except_KeyError
      (t <- getitem sd buf_name ;; ret (values ++ view_flat_tolist t))
      (ret values)).

Definition log_model_buffers
    (buffer_names : list string) (tag_prefix : string)
    (epoch completed total : Z) (freq : Z) : M unit :=
  modules <- model_named_modules ;;
  for_each modules (fun nm =>
    let module_name := fst nm in
    let module := snd nm in
    if has_children module then ret tt
    else
      let sd := state_dict "" module in
      values <- collect_values sd buffer_names ;;
      match values with
      | [] => ret tt
      | _ :: _ =>
          let tag := join "/" [tag_prefix; module_name] in
          writer_add_scalars tag values (total * epoch + completed)
      end).

End Methods.
End TensorBoardLogger.

(** ** [class PythonLogger] *)

Module PythonLogger.
Section Methods.
Context `{Externals}.

Definition log_weights_sparsity (epoch : Z) : M unit :=
  fun w =>
    let t_total := weights_sparsity_tbl_summary (w_model w) [2; 3; 4]%nat in
    (pylogger_info (newline +:+ "Parameters:" +:+ newline +:+ fst t_total) ;;
     pylogger_info ("Total sparsity: " +:+ format_0_2f (snd t_total) +:+ newline)) w.

End Methods.
End PythonLogger.

(** ** [class CsvLogger] *)

Module CsvLogger.
Section Methods.
Context `{Externals}.

Definition header : row :=
  [CStr "parameter"; CStr "shape"; CStr "volume"; CStr "sparse volume";
   CStr "sparsity level"].

(** One turn of the loop; [acc] is [(params_size, sparse_params_size)]. *)
Definition sparsity_step (csv_file : string) (acc : Z * Q)
    (np : string * Tensor) : M (Z * Q) :=
  let params_size := fst acc in
  let sparse_params_size := snd acc in
  let name := fst np in
  let param := snd np in
  if dim_in (dim param) [2; 3; 4]%nat then
    let _density := density param in
    let params_size := params_size + numel param in
    let sparse_params_size :=
      (sparse_params_size + inject_Z (numel param) * _density)%Q in
    writerow csv_file
      [CStr name; CStr (size_to_str (shape param)); CInt (numel param);
       CInt (py_int (float_mul _density (float_of_int (numel param))));
       CFloat (float_mul (float_sub 1 _density) 100)] ;;
    ret (params_size, sparse_params_size)
  else ret (params_size, sparse_params_size).

(** The [model] argument is the model of the world. *)
Definition log_weights_sparsity (epoch : Z) : M unit :=
  let fname := get_fname "weights_sparsity" in
  with_open fname (fun csv_file =>
    writerow csv_file header ;;
    items <- model_state_dict ;;
    _ <- for_each_acc items (0, 0%Q) (sparsity_step csv_file) ;;
    ret tt).

End Methods.
End CsvLogger.

(** ** What the statements are written with *)

(** The world after the calls [cs] were made on the writer. *)
Definition add_calls (cs : list tb_call) (w : World) : World :=
  mkWorld (w_model w) (w_writer w ++ cs) (w_pylog w) (w_fs w).

(** [m] ends normally with [a], having made exactly the calls [cs] on the
    writer and nothing else, from every world. *)
Definition emits {A} (m : M A) (a : A) (cs : list tb_call) : Prop :=
  forall w, m w = (Ok a, add_calls cs w).

(** The key a call on the writer is made under. *)
Definition call_tag (c : tb_call) : string :=
  match c with
  | add_scalar tag _ _ => tag
  | add_scalars main_tag _ _ => main_tag
  | add_histogram tag _ _ => tag
  end.

(** [param.dim() in [2, 3, 4]] *)
Definition qualifies (np : string * Tensor) : bool :=
  dim_in (dim (snd np)) [2; 3; 4]%nat.

(** The rank-2/3/4 entries of the model's state dict, in order. *)
Definition qualifying_params (w : World) : list (string * Tensor) :=
  List.filter qualifies (state_dict "" (w_model w)).

(** The two per-parameter scalars. *)
Definition sparsity_calls `{Externals} (epoch : Z) (np : string * Tensor)
  : list tb_call :=
  [add_scalar ("sparsity/weights/" +:+ fst np) (sparsity (snd np) * 100)%Q epoch;
   add_scalar ("sparsity-2D/weights/" +:+ fst np) (sparsity_2D (snd np) * 100)%Q epoch].

(** [sum(numel_i)] *)
Definition total_numel (ps : list (string * Tensor)) : Z :=
  fold_right Z.add 0 (map (fun np => numel (snd np)) ps).

(** [sum(density_i * numel_i)] *)
Definition total_dense `{Externals} (ps : list (string * Tensor)) : Q :=
  fold_right Qplus 0%Q
    (map (fun np => (density (snd np) * inject_Z (numel (snd np)))%Q) ps).

(** The accumulators after one turn of the loop. *)
Definition sparsity_next `{Externals} (acc : Z * Q) (np : string * Tensor) : Z * Q :=
  if qualifies np
  then (fst acc + numel (snd np),
        (snd acc + inject_Z (numel (snd np)) * density (snd np))%Q)
  else (fst acc, snd acc).

(** [m] leaves the component [proj] of the world as it found it, however
    it ends. *)
Definition preserves {A X} (proj : World -> X) (m : M A) : Prop :=
  forall w, proj (snd (m w)) = proj w.

(** The row written for a qualifying parameter. *)
Definition csv_row `{Externals} (np : string * Tensor) : row :=
  [CStr (fst np); CStr (size_to_str (shape (snd np))); CInt (numel (snd np));
   CInt (py_int (float_mul (density (snd np)) (float_of_int (numel (snd np)))));
   CFloat (float_mul (float_sub 1 (density (snd np))) 100)].

(** The device accepts [n] more rows. *)
Definition has_room (n : nat) (room : option nat) : Prop :=
  match room with
  | None => True
  | Some r => (n <= r)%nat
  end.

Definition room_after (n : nat) (room : option nat) : option nat :=
  (fun r => (r - n)%nat) <$> room.

(** The world after [n] rows went to the file [path], which now holds
    [content]. *)
Definition file_written (path : string) (content : list row) (n : nat) (w : World)
  : World :=
  set_fs (mkFS (<[path := content]> (fs_files (w_fs w))) (fs_open (w_fs w))
               (fs_denied (w_fs w)) (room_after n (fs_room (w_fs w)))) w.

(** The handles open in a world. *)
Definition open_handles (w : World) : list string := fs_open (w_fs w).

(** The histograms written for one parameter. *)
Definition histogram_calls `{Externals} (s : TensorBoardLogger.self)
    (steps_completed : Z) (name : string) (value : Tensor) (grad : list Tensor)
  : list tb_call :=
  let tag := replace "." "/" name in
  (if existsb (fun substring => contains substring tag)
              (TensorBoardLogger.logged_params s)
   then [add_histogram tag (to_np value) steps_completed]
   else [])
  ++ map (fun g => add_histogram (tag +:+ "/grad") (to_np g) steps_completed) grad.

Definition option_list {A} (o : option A) : list A :=
  match o with
  | Some a => [a]
  | None => []
  end.

(** The entry of a state dict under [key], if there is one. *)
Fixpoint sd_lookup (sd : list (string * Tensor)) (key : string) : option Tensor :=
  match sd with
  | [] => None
  | (k, t) :: rest => if String.eqb k key then Some t else sd_lookup rest key
  end.

(** The values collected from a module's state for the listed buffers. *)
Definition collected (sd : list (string * Tensor)) (buffer_names : list string)
  : list Q :=
  flat_map (fun buf_name => match sd_lookup sd buf_name with
                            | Some t => view_flat_tolist t
                            | None => []
                            end) buffer_names.

(** Does [log_model_buffers] reach its [add_scalars] call on this entry
    of [named_modules()]: a leaf from which a value was collected? *)
Definition has_values (buffer_names : list string) (nm : string * nn_Module)
  : bool :=
  negb (has_children (snd nm))
  && match collected (state_dict "" (snd nm)) buffer_names with
     | [] => false
     | _ :: _ => true
     end.

(** The global step a call on the writer is made at. *)
Definition call_step (c : tb_call) : Z :=
  match c with
  | add_scalar _ _ global_step => global_step
  | add_scalars _ _ global_step => global_step
  | add_histogram _ _ global_step => global_step
  end.

(** The calls a computation started in [w] added to the writer. *)
Definition written {A} (m : M A) (w : World) : list tb_call :=
  skipn (length (w_writer w)) (w_writer (snd (m w))).

(** [param.dim() in [4]] *)
Definition is_filter (np : string * Tensor) : bool :=
  dim_in (dim (snd np)) [4%nat].

(** The test of [log_weights_distribution] on a name: does a configured
    substring occur in it once ['.'] is ['/']? *)
Definition is_logged (logged : list string) (name : string) : bool :=
  existsb (fun substring => contains substring (replace "." "/" name)) logged.

(** The leaf entries of [named_modules()]. *)
Definition leaves (m : nn_Module) : list (string * nn_Module) :=
  List.filter (fun nm => negb (has_children (snd nm))) (named_modules "" m).

(** ** Sample externals, to run the loggers on concrete inputs *)

Definition is_nonzero (x : Q) : bool := negb (Z.eqb (Qnum x) 0).

(** Modelled from the spec: [distiller.utils.density], which is not in
    [tblogger.py]; the "count of non-zero elements" is "density x count",
    so the density is that count over the element count, a float
    division (the spec's example: 6 non-zero entries of 16 give [6/16]). *)
Definition spec_density (t : Tensor) : Q :=
  float_div (float_of_int (Z.of_nat (length (List.filter is_nonzero (data t)))))
            (float_of_int (numel t)).

(** Modelled from the spec: [distiller.utils.size_to_str], which is not in
    [tblogger.py]; the "human-readable shape string" of a (4,4) parameter
    is ["4x4"]. *)
Definition spec_size_to_str (sh : list nat) : string :=
  join "x" (map (fun n => NilZero.string_of_uint (Nat.to_uint n)) sh).

(** One choice of the externals: density and shape string as the spec
    describes them, sparsity as [1 - density]; the other utilities, which
    the spec leaves to the library, are fixed to simple functions. The
    general statements below hold for every choice of the externals; this
    one serves to evaluate the loggers on examples. *)
Definition sample_externals : Externals := {|
  density := spec_density;
  sparsity := fun t => float_sub 1 (spec_density t);
  sparsity_2D := fun t => float_sub 1 (spec_density t);
  size_to_str := spec_size_to_str;
  norm_filters := fun t => t;
  to_np := fun t => t;
  weights_sparsity_tbl_summary := fun _ _ => (""%string, 0%Q);
  get_fname := fun postfix => (postfix +:+ ".csv")%string;
  format_0_2f := fun _ => ""%string
|}.

Definition empty_fs : FileSystem :=
  {| fs_files := ∅; fs_open := []; fs_denied := []; fs_room := None |}.

(** A world around a model: nothing logged yet, an empty file system. *)
Definition fresh_world (model : nn_Module) : World :=
  {| w_model := model; w_writer := []; w_pylog := []; w_fs := empty_fs |}.

(** A (4,4) weight with 6 non-zero entries. *)
Definition weight_4x4 : Tensor :=
  mkTensor [4; 4]%nat
    [1; 0; 2; 0;  0; 3; 0; 0;  0; 0; 4; 0;  5; 0; 0; 6]%Q.

(** A bias vector of 4 entries. *)
Definition bias_4 : Tensor := mkTensor [4%nat] [1; 0; 0; 1]%Q.

(** A rank-2 weight without elements, as [torch.empty(0, 4)]. *)
Definition weight_0x4 : Tensor := mkTensor [0; 4]%nat [].

Definition model_dense : nn_Module :=
  Mod [("weight"%string, weight_4x4); ("bias"%string, bias_4)] [].

Definition model_bias_only : nn_Module := Mod [("bias"%string, bias_4)] [].

Definition model_empty_weight : nn_Module := Mod [("weight"%string, weight_0x4)] [].

(** The weight of [model_dense] alone. *)
Definition model_weight_only : nn_Module := Mod [("weight"%string, weight_4x4)] [].

(** A rank-4 filter bank of shape (1,1,2,2). *)
Definition filters_1x1x2x2 : Tensor := mkTensor [1; 1; 2; 2]%nat [1; 0; 0; 2]%Q.

Definition model_conv : nn_Module :=
  Mod [("conv.weight"%string, filters_1x1x2x2); ("fc.weight"%string, weight_4x4)] [].

(** A (7,7) weight with one non-zero entry. *)
Definition weight_7x7 : Tensor := mkTensor [7; 7]%nat (1%Q :: repeat 0%Q 48).

Definition model_sparse_7x7 : nn_Module := Mod [("weight"%string, weight_7x7)] [].

(** A model with one (4,4) parameter, 6 of its entries non-zero. *)
Definition model_one_weight : nn_Module := Mod [("name"%string, weight_4x4)] [].

(** A device that accepts one more row: the header fits, the first data
    row does not. *)
Definition world_short_of_room : World :=
  {| w_model := model_dense; w_writer := []; w_pylog := [];
     w_fs := {| fs_files := ∅; fs_open := []; fs_denied := [];
                fs_room := Some 1%nat |} |}.

(** A model with two leaves below the root. *)
Definition model_two_leaves : nn_Module :=
  Mod []
    [("conv"%string, Mod [("weight"%string, weight_4x4)] []);
     ("bn"%string, Mod [("running_mean"%string, bias_4)] [])].

(** * Properties *)

(** ** What a computation leaves in the writer *)

Lemma add_calls_nil w : add_calls [] w = w.
Proof. destruct w; unfold add_calls; simpl. now rewrite app_nil_r. Qed.

Lemma add_calls_app cs1 cs2 w :
  add_calls cs2 (add_calls cs1 w) = add_calls (cs1 ++ cs2) w.
Proof. unfold add_calls; simpl. now rewrite app_assoc. Qed.

Lemma emits_ret {A} (a : A) : emits (ret a) a [].
Proof. intros w. unfold ret. now rewrite add_calls_nil. Qed.

Lemma emits_writer_call c : emits (writer_call c) tt [c].
Proof. intros w. reflexivity. Qed.

Lemma emits_bind {A B} (m : M A) (k : A -> M B) a b cs1 cs2 :
  emits m a cs1 -> emits (k a) b cs2 -> emits (bind m k) b (cs1 ++ cs2).
Proof.
  intros Hm Hk w. unfold bind. rewrite Hm, Hk. now rewrite add_calls_app.
Qed.

Lemma emits_for_each {A} (body : A -> M unit) (f : A -> list tb_call) l :
  (forall x, emits (body x) tt (f x)) ->
  emits (for_each l body) tt (flat_map f l).
Proof.
  intros Hbody. induction l as [|x l IH]; simpl.
  - apply emits_ret.
  - eapply emits_bind; [apply Hbody | exact IH].
Qed.

Lemma emits_for_each_acc {A S} (body : S -> A -> M S) (g : S -> A -> S)
    (f : A -> list tb_call) l :
  (forall s x, emits (body s x) (g s x) (f x)) ->
  forall s, emits (for_each_acc l s body) (fold_left g l s) (flat_map f l).
Proof.
  intros Hbody. induction l as [|x l IH]; intros s; simpl.
  - apply emits_ret.
  - eapply emits_bind; [apply Hbody | apply IH].
Qed.

Lemma flat_map_single {A B} (f : A -> B) l :
  flat_map (fun x => [f x]) l = map f l.
Proof. induction l as [|x l IH]; simpl; [reflexivity | now rewrite IH]. Qed.

(** ** Strings *)

Lemma replace_chars old new s :
  list_ascii_of_string (replace old new s)
  = map (fun c => if Ascii.eqb c old then new else c) (list_ascii_of_string s).
Proof. induction s as [|c s IH]; simpl; [reflexivity | now rewrite IH]. Qed.

(** ** [TensorBoardLogger.log_training_progress] *)

(** C4: for every stats mapping and counters, [log_training_progress]
    makes one [add_scalar] call per (metric name, value) entry, in order,
    at global step [total * epoch + completed], under the key
    [prefix + name] where every space of the name is an underscore and
    every other character is kept; with [total = 10], [epoch = 3],
    [completed = 4] the global step is 34. *)
Theorem log_training_progress_writes
    (prefix : string) (stats : list (string * Q))
    (epoch completed total freq : Z) (w : World) :
  TensorBoardLogger.log_training_progress (prefix, stats) epoch completed total freq w
  = (Ok tt,
     add_calls
       (map (fun tv => add_scalar (prefix +:+ replace " " "_" (fst tv)) (snd tv)
                                  (total * epoch + completed)) stats) w)
  /\ (forall tag,
        list_ascii_of_string (replace " " "_" tag)
        = map (fun c => if Ascii.eqb c " " then "_"%char else c)
              (list_ascii_of_string tag))
  /\ TensorBoardLogger.log_training_progress
       ("Perf/"%string, [("Top 1"%string, 1 # 2)]) 3 4 10 freq w
     = (Ok tt, add_calls [add_scalar "Perf/Top_1" (1 # 2) 34] w).
Proof.
  split; [|split].
  - unfold TensorBoardLogger.log_training_progress. simpl fst; simpl snd.
    rewrite <- flat_map_single.
    apply emits_for_each. intros x. apply emits_writer_call.
  - intros tag. apply replace_chars.
  - reflexivity.
Qed.

(** ** [TensorBoardLogger.log_weights_sparsity] *)

Lemma flat_map_filter {A B} (p : A -> bool) (f : A -> list B) l :
  flat_map (fun x => if p x then f x else []) l = flat_map f (List.filter p l).
Proof.
  induction l as [|x l IH]; simpl; [reflexivity|].
  destruct (p x); simpl; now rewrite IH.
Qed.

Lemma sparsity_step_emits `{Externals} epoch acc np :
  emits (TensorBoardLogger.sparsity_step epoch acc np) (sparsity_next acc np)
        (if qualifies np then sparsity_calls epoch np else []).
Proof.
  unfold TensorBoardLogger.sparsity_step, sparsity_next, qualifies.
  destruct (dim_in (dim (snd np)) [2; 3; 4]%nat).
  - unfold sparsity_calls.
    eapply (emits_bind _ _ tt _ [_] [_]); [apply emits_writer_call|].
    eapply (emits_bind _ _ tt _ [_] []); [apply emits_writer_call|].
    apply emits_ret.
  - apply emits_ret.
Qed.

Lemma sparsity_loop_emits `{Externals} epoch items acc :
  emits (for_each_acc items acc (TensorBoardLogger.sparsity_step epoch))
        (fold_left sparsity_next items acc)
        (flat_map (sparsity_calls epoch) (List.filter qualifies items)).
Proof.
  rewrite <- flat_map_filter.
  apply emits_for_each_acc. intros s x. apply sparsity_step_emits.
Qed.

Lemma sparsity_fold_fst `{Externals} items acc :
  fst (fold_left sparsity_next items acc)
  = fst acc + total_numel (List.filter qualifies items).
Proof.
  revert acc. induction items as [|np items IH]; intros acc; simpl.
  - unfold total_numel; simpl. lia.
  - rewrite IH. unfold sparsity_next. destruct (qualifies np); simpl.
    + unfold total_numel; simpl. lia.
    + reflexivity.
Qed.

Lemma sparsity_fold_snd `{Externals} items acc :
  (snd (fold_left sparsity_next items acc)
   == snd acc + total_dense (List.filter qualifies items))%Q.
Proof.
  revert acc. induction items as [|np items IH]; intros acc; simpl.
  - unfold total_dense; simpl. ring.
  - rewrite IH. unfold sparsity_next. destruct (qualifies np); simpl.
    + unfold total_dense; simpl. ring.
    + reflexivity.
Qed.

Lemma sparsity_fold_none `{Externals} items :
  List.filter qualifies items = [] ->
  fold_left sparsity_next items (0, 0%Q) = (0, 0%Q).
Proof.
  induction items as [|np items IH]; simpl; [reflexivity|].
  unfold sparsity_next at 2. destruct (qualifies np); [discriminate|].
  exact IH.
Qed.

(** The two ways a call of [log_weights_sparsity] ends. *)
Lemma log_weights_sparsity_run `{Externals} epoch w :
  let acc := fold_left sparsity_next (state_dict "" (w_model w)) (0, 0%Q) in
  let calls := flat_map (sparsity_calls epoch) (qualifying_params w) in
  TensorBoardLogger.log_weights_sparsity epoch w
  = if Z.eqb (fst acc) 0
    then (Raise ZeroDivisionError, add_calls calls w)
    else (Ok tt,
          add_calls
            (calls ++ [add_scalar "sparsity/weights/total"
                         (100 * (1 - snd acc / inject_Z (fst acc)))%Q epoch]) w).
Proof.
  intros acc calls.
  unfold TensorBoardLogger.log_weights_sparsity, model_state_dict.
  unfold bind at 1.
  unfold bind at 1. rewrite sparsity_loop_emits. fold acc. fold (qualifying_params w). fold calls.
  unfold bind, py_div. destruct (Z.eqb (fst acc) 0); [reflexivity|].
  unfold ret, writer_call. f_equal. unfold add_calls; simpl. now rewrite app_assoc.
Qed.

(** C1, for the models whose rank-2/3/4 parameters hold at least one
    element in total: [log_weights_sparsity] ends normally
    having made, for each qualifying parameter in order, exactly the two
    calls [add_scalar('sparsity/weights/<name>', sparsity*100, epoch)] and
    [add_scalar('sparsity-2D/weights/<name>', sparsity_2D*100, epoch)], and
    then exactly one call [add_scalar('sparsity/weights/total', v, epoch)]
    with [v = 100*(1 - sum(density_i*numel_i)/sum(numel_i))] over the
    qualifying parameters. *)
Theorem log_weights_sparsity_writes `{Externals} (w : World) (epoch : Z) :
  total_numel (qualifying_params w) <> 0 ->
  exists total : Q,
    TensorBoardLogger.log_weights_sparsity epoch w
    = (Ok tt,
       add_calls
         (flat_map (sparsity_calls epoch) (qualifying_params w)
          ++ [add_scalar "sparsity/weights/total" total epoch]) w)
    /\ (total == 100 * (1 - total_dense (qualifying_params w)
                            / inject_Z (total_numel (qualifying_params w))))%Q.
Proof.
  intros Hpos.
  pose proof (log_weights_sparsity_run epoch w) as Hrun. cbv zeta in Hrun.
  pose proof (sparsity_fold_fst (state_dict "" (w_model w)) (0, 0%Q)) as Hfst.
  pose proof (sparsity_fold_snd (state_dict "" (w_model w)) (0, 0%Q)) as Hsnd.
  simpl fst in Hfst. simpl snd in Hsnd. fold (qualifying_params w) in Hfst, Hsnd.
  rewrite Z.add_0_l in Hfst.
  destruct (Z.eqb_spec (fst (fold_left sparsity_next (state_dict "" (w_model w)) (0, 0%Q))) 0)
    as [Hz|Hnz].
  - rewrite Hfst in Hz. contradiction.
  - eexists. split; [exact Hrun|].
    rewrite Hfst, Hsnd. rewrite Qplus_0_l. reflexivity.
Qed.

Lemma log_weights_sparsity_writes_witness :
  total_numel (qualifying_params (fresh_world model_dense)) <> 0
  /\ exists total : Q,
       @TensorBoardLogger.log_weights_sparsity sample_externals 7
         (fresh_world model_dense)
       = (Ok tt,
          add_calls
            (flat_map (@sparsity_calls sample_externals 7)
                      (qualifying_params (fresh_world model_dense))
             ++ [add_scalar "sparsity/weights/total" total 7])
            (fresh_world model_dense))
       /\ (total == 100 * (1 - @total_dense sample_externals
                                   (qualifying_params (fresh_world model_dense))
                               / inject_Z (total_numel
                                   (qualifying_params (fresh_world model_dense)))))%Q.
Proof.
  split.
  - vm_compute. discriminate.
  - apply (@log_weights_sparsity_writes sample_externals (fresh_world model_dense) 7).
    vm_compute. discriminate.
Defined.

(** C1 as stated fails on a model whose only rank-2 parameter has no
    element: the parameter qualifies, and whatever the externals return
    the call raises [ZeroDivisionError] and no scalar is written under
    ['sparsity/weights/total']. *)
Lemma log_weights_sparsity_empty_weight :
  qualifying_params (fresh_world model_empty_weight)
  = [("weight"%string, weight_0x4)]
  /\ forall E : Externals,
       fst (@TensorBoardLogger.log_weights_sparsity E 7
              (fresh_world model_empty_weight))
       = Raise ZeroDivisionError
       /\ ~ In "sparsity/weights/total"%string
              (map call_tag
                 (w_writer (snd (@TensorBoardLogger.log_weights_sparsity E 7
                                   (fresh_world model_empty_weight))))).
Proof.
  split; [reflexivity|]. intros E. split; [reflexivity|].
  simpl. intros [Heq | [Heq | []]]; discriminate.
Qed.

(** C2: for every model without a parameter of rank 2, 3 or 4, the loop of
    [log_weights_sparsity] ends with [params_size = 0] (and
    [sparse_params_size = 0]) without a call on the writer, and the
    aggregate computation then raises [ZeroDivisionError]: nothing guards
    the division, and nothing was written. *)
Theorem log_weights_sparsity_division_by_zero `{Externals} (w : World) (epoch : Z) :
  qualifying_params w = [] ->
  for_each_acc (state_dict "" (w_model w)) (0, 0%Q)
               (TensorBoardLogger.sparsity_step epoch) w
  = (Ok (0, 0%Q), w)
  /\ TensorBoardLogger.log_weights_sparsity epoch w = (Raise ZeroDivisionError, w).
Proof.
  intros Hnone. unfold qualifying_params in Hnone. split.
  - rewrite sparsity_loop_emits, Hnone, (sparsity_fold_none _ Hnone).
    simpl. now rewrite add_calls_nil.
  - pose proof (log_weights_sparsity_run epoch w) as Hrun. cbv zeta in Hrun.
    rewrite Hrun. unfold qualifying_params.
    rewrite (sparsity_fold_none _ Hnone), Hnone. simpl.
    now rewrite add_calls_nil.
Qed.

Lemma log_weights_sparsity_division_by_zero_witness :
  qualifying_params (fresh_world model_bias_only) = []
  /\ for_each_acc (state_dict "" (w_model (fresh_world model_bias_only))) (0, 0%Q)
                  (@TensorBoardLogger.sparsity_step sample_externals 7)
                  (fresh_world model_bias_only)
     = (Ok (0, 0%Q), fresh_world model_bias_only)
  /\ @TensorBoardLogger.log_weights_sparsity sample_externals 7
       (fresh_world model_bias_only)
     = (Raise ZeroDivisionError, fresh_world model_bias_only).
Proof.
  split.
  - reflexivity.
  - apply (@log_weights_sparsity_division_by_zero sample_externals
             (fresh_world model_bias_only) 7).
    reflexivity.
Defined.

(** ** Frames: what a computation leaves alone *)

Lemma preserves_ret {A X} (proj : World -> X) (a : A) : preserves proj (ret a).
Proof. intros w. reflexivity. Qed.

Lemma preserves_raise {A X} (proj : World -> X) e : preserves proj (@raise A e).
Proof. intros w. reflexivity. Qed.

Lemma preserves_bind {A B X} (proj : World -> X) (m : M A) (k : A -> M B) :
  preserves proj m -> (forall a, preserves proj (k a)) -> preserves proj (bind m k).
Proof.
  intros Hm Hk w. unfold bind. specialize (Hm w).
  destruct (m w) as [[a|e] w']; simpl in *.
  - now rewrite Hk.
  - exact Hm.
Qed.

Lemma preserves_for_each {A X} (proj : World -> X) (body : A -> M unit) l :
  (forall x, preserves proj (body x)) -> preserves proj (for_each l body).
Proof.
  intros Hbody. induction l as [|x l IH]; simpl.
  - apply preserves_ret.
  - apply preserves_bind; [apply Hbody | intros _; exact IH].
Qed.

Lemma preserves_for_each_acc {A S X} (proj : World -> X) (body : S -> A -> M S) l :
  (forall s x, preserves proj (body s x)) ->
  forall s, preserves proj (for_each_acc l s body).
Proof.
  intros Hbody. induction l as [|x l IH]; intros s; simpl.
  - apply preserves_ret.
  - apply preserves_bind; [apply Hbody | intros s'; apply IH].
Qed.

Lemma preserves_try_except_KeyError {A X} (proj : World -> X) (body handler : M A) :
  preserves proj body -> preserves proj handler ->
  preserves proj (try_except_KeyError body handler).
Proof.
  intros Hb Hh w. unfold try_except_KeyError. specialize (Hb w).
  destruct (body w) as [[a|[]] w']; simpl in *; try exact Hb.
  now rewrite Hh.
Qed.

Lemma preserves_getitem {X} (proj : World -> X) sd key : preserves proj (getitem sd key).
Proof.
  induction sd as [|[k t] sd IH]; simpl.
  - apply preserves_raise.
  - destruct (String.eqb k key); [apply preserves_ret | exact IH].
Qed.

Lemma preserves_if {A X} (proj : World -> X) (b : bool) (m1 m2 : M A) :
  preserves proj m1 -> preserves proj m2 -> preserves proj (if b then m1 else m2).
Proof. destruct b; auto. Qed.

(** ** [CsvLogger.log_weights_sparsity] *)

Lemma room_after_0 room : room_after 0 room = room.
Proof. destruct room as [r|]; simpl; [f_equal; lia | reflexivity]. Qed.

Lemma room_after_add a b room :
  room_after b (room_after a room) = room_after (a + b) room.
Proof. destruct room as [r|]; simpl; [f_equal; lia | reflexivity]. Qed.

Lemma file_written_id path content w :
  fs_files (w_fs w) !! path = Some content -> file_written path content 0 w = w.
Proof.
  intros Hl. destruct w as [m tb pl [files op den room]]; simpl in *.
  unfold file_written, set_fs; simpl.
  rewrite room_after_0. now rewrite (insert_id files path content Hl).
Qed.

Lemma file_written_twice path c1 c2 n1 n2 w :
  file_written path c2 n2 (file_written path c1 n1 w)
  = file_written path c2 (n1 + n2) w.
Proof.
  unfold file_written, set_fs; simpl.
  now rewrite insert_insert_eq, room_after_add.
Qed.

Lemma writerow_ok path r w old :
  fs_files (w_fs w) !! path = Some old ->
  has_room 1 (fs_room (w_fs w)) ->
  writerow path r w = (Ok tt, file_written path (old ++ [r]) 1 w).
Proof.
  intros Hl Hroom. unfold writerow, file_written. rewrite Hl. simpl.
  destruct (fs_room (w_fs w)) as [[|r']|]; simpl in *; try lia.
  - do 4 f_equal. lia.
  - reflexivity.
Qed.

Lemma csv_loop_ok `{Externals} path items :
  forall acc w old,
    fs_files (w_fs w) !! path = Some old ->
    has_room (length (List.filter qualifies items)) (fs_room (w_fs w)) ->
    for_each_acc items acc (CsvLogger.sparsity_step path) w
    = (Ok (fold_left sparsity_next items acc),
       file_written path (old ++ map csv_row (List.filter qualifies items))
                    (length (List.filter qualifies items)) w).
Proof.
  induction items as [|np items IH]; intros acc w old Hl Hroom; simpl.
  - unfold ret. rewrite app_nil_r. now rewrite file_written_id.
  - simpl in Hroom. unfold bind, CsvLogger.sparsity_step.
    change (dim_in (dim (snd np)) [2; 3; 4]%nat) with (qualifies np).
    assert (Hnext : sparsity_next acc np
                    = if qualifies np
                      then (fst acc + numel (snd np),
                            (snd acc + inject_Z (numel (snd np)) * density (snd np))%Q)
                      else (fst acc, snd acc)) by reflexivity.
    destruct (qualifies np) eqn:Hq; rewrite Hnext.
    + simpl in Hroom.
      assert (Hone : has_room 1 (fs_room (w_fs w))).
      { destruct (fs_room (w_fs w)); simpl in *; [lia | exact I]. }
      unfold bind. fold (csv_row np). rewrite (writerow_ok _ _ _ _ Hl Hone). unfold ret.
      erewrite IH.
      * rewrite file_written_twice.
        replace ((old ++ [csv_row np]) ++ map csv_row (List.filter qualifies items))
          with (old ++ csv_row np :: map csv_row (List.filter qualifies items))
          by (now rewrite <- app_assoc).
        reflexivity.
      * unfold file_written, set_fs; simpl. apply lookup_insert_eq.
      * unfold file_written, set_fs; simpl.
        destruct (fs_room (w_fs w)); simpl in *; [lia | exact I].
    + unfold ret. now apply IH.
Qed.

(** C3: when the file can be opened and every row written, and every
    parameter of rank 2, 3 or 4 holds at least one element (so that the
    imported [density] has a value on it),
    [CsvLogger.log_weights_sparsity] leaves in the file
    [get_fname('weights_sparsity')], whatever it held before, first the
    header row [parameter, shape, volume, sparse volume, sparsity level]
    and then, for every parameter of rank 2, 3 or 4 in order, exactly one
    row: its name, its shape string, its element count,
    [int(density * numel)] and [(1 - density) * 100], both computed in
    floating point. A (4,4) parameter with 6 non-zero entries gives the
    row [name, "4x4", 16, 6, 62.5]. *)
Theorem csv_log_weights_sparsity_rows `{Externals} (w : World) (epoch : Z) :
  existsb (String.eqb (get_fname "weights_sparsity")) (fs_denied (w_fs w)) = false ->
  has_room (S (length (qualifying_params w))) (fs_room (w_fs w)) ->
  Forall (fun np => numel (snd np) <> 0) (qualifying_params w) ->
  CsvLogger.log_weights_sparsity epoch w
  = (Ok tt,
     file_written (get_fname "weights_sparsity")
       (CsvLogger.header :: map csv_row (qualifying_params w))
       (S (length (qualifying_params w))) w)
  /\ CsvLogger.header
     = [CStr "parameter"; CStr "shape"; CStr "volume"; CStr "sparse volume";
        CStr "sparsity level"]
  /\ (forall name param,
        csv_row (name, param)
        = [CStr name; CStr (size_to_str (shape param)); CInt (numel param);
           CInt (py_int (float_mul (density param) (float_of_int (numel param))));
           CFloat (float_mul (float_sub 1 (density param)) 100)])
  /\ exists level : Q,
       fs_files (w_fs (snd (@CsvLogger.log_weights_sparsity sample_externals epoch
                              (fresh_world model_one_weight))))
         !! "weights_sparsity.csv"%string
       = Some [CsvLogger.header;
               [CStr "name"; CStr "4x4"; CInt 16; CInt 6; CFloat level]]
       /\ (level == 625 # 10)%Q.
Proof.
  intros Hopen Hroom _. split; [|split; [reflexivity | split; [reflexivity|]]].
  - unfold CsvLogger.log_weights_sparsity, with_open, open_w. rewrite Hopen.
    set (fname := get_fname "weights_sparsity").
    set (w1 := set_fs _ w).
    assert (Hl1 : fs_files (w_fs w1) !! fname = Some []).
    { unfold w1, set_fs; simpl. apply lookup_insert_eq. }
    assert (Hr1 : has_room 1 (fs_room (w_fs w1))).
    { unfold w1, set_fs; simpl.
      destruct (fs_room (w_fs w)); simpl in *; [lia | exact I]. }
    unfold bind at 1. rewrite (writerow_ok _ _ _ _ Hl1 Hr1).
    unfold bind at 1. unfold model_state_dict.
    unfold bind at 1.
    rewrite (csv_loop_ok fname _ _ _ ([] ++ [CsvLogger.header])).
    + unfold ret. rewrite file_written_twice. simpl app.
      unfold close, file_written, set_fs, w1; simpl.
      rewrite String.eqb_refl, insert_insert_eq. reflexivity.
    + unfold file_written, set_fs; simpl. apply lookup_insert_eq.
    + unfold file_written, set_fs, w1; simpl.
      unfold qualifying_params in Hroom.
      destruct (fs_room (w_fs w)); simpl in *; [lia | exact I].
  - eexists. split; [vm_compute; reflexivity | reflexivity].
Qed.

Lemma csv_log_weights_sparsity_rows_witness :
  (existsb (String.eqb (@get_fname sample_externals "weights_sparsity"))
           (fs_denied (w_fs (fresh_world model_dense))) = false
   /\ has_room (S (length (qualifying_params (fresh_world model_dense))))
               (fs_room (w_fs (fresh_world model_dense)))
   /\ Forall (fun np => numel (snd np) <> 0)
             (qualifying_params (fresh_world model_dense)))
  /\ @CsvLogger.log_weights_sparsity sample_externals 7 (fresh_world model_dense)
     = (Ok tt,
        file_written (@get_fname sample_externals "weights_sparsity")
          (CsvLogger.header
           :: map (@csv_row sample_externals)
                  (qualifying_params (fresh_world model_dense)))
          (S (length (qualifying_params (fresh_world model_dense))))
          (fresh_world model_dense)).
Proof.
  assert (Hfull : Forall (fun np => numel (snd np) <> 0)
                         (qualifying_params (fresh_world model_dense))).
  { repeat constructor. vm_compute. discriminate. }
  split; [split; [reflexivity | split; [exact I | exact Hfull]]|].
  apply (@csv_log_weights_sparsity_rows sample_externals (fresh_world model_dense) 7
           eq_refl I Hfull).
Defined.

(** The float product decides the sparse volume: on a (7,7) parameter
    with one non-zero entry, [1/49 * 49] rounds to the float below 1 and
    the cell written is 0. *)
Lemma csv_sparse_volume_of_rounded_product :
  exists level : Q,
    fs_files (w_fs (snd (@CsvLogger.log_weights_sparsity sample_externals 7
                           (fresh_world model_sparse_7x7))))
      !! "weights_sparsity.csv"%string
    = Some [CsvLogger.header;
            [CStr "weight"; CStr "7x7"; CInt 49; CInt 0; CFloat level]].
Proof. eexists. vm_compute. reflexivity. Qed.

(** [round64] against the binary64 arithmetic of the machine, on the
    quotients and products used above. *)
Lemma round64_agrees_with_binary64 :
  let f n := PrimFloat.of_uint63 (Uint63.of_Z n) in
  (float_div 1 49 == float_value (PrimFloat.div (f 1%Z) (f 49%Z)))%Q
  /\ (float_mul (float_div 1 49) 49
      == float_value (PrimFloat.mul (PrimFloat.div (f 1%Z) (f 49%Z)) (f 49%Z)))%Q
  /\ (float_mul (float_div 15 22) 22
      == float_value (PrimFloat.mul (PrimFloat.div (f 15%Z) (f 22%Z)) (f 22%Z)))%Q
  /\ (float_mul (float_sub 1 (float_div 6 16)) 100
      == float_value (PrimFloat.mul
                        (PrimFloat.sub (f 1%Z) (PrimFloat.div (f 6%Z) (f 16%Z))) (f 100%Z)))%Q
  /\ (float_mul (float_sub 1 (float_div 1 49)) 100
      == float_value (PrimFloat.mul
                        (PrimFloat.sub (f 1%Z) (PrimFloat.div (f 1%Z) (f 49%Z))) (f 100%Z)))%Q.
Proof. cbv zeta. repeat split; vm_compute; reflexivity. Qed.

(** ** The model and the open handles are left alone *)

Lemma model_writer_call c : preserves w_model (writer_call c).
Proof. intros w. reflexivity. Qed.

Lemma model_pylogger_info msg : preserves w_model (pylogger_info msg).
Proof. intros w. reflexivity. Qed.

Lemma model_state_dict_read {X} (proj : World -> X) : preserves proj model_state_dict.
Proof. intros w. reflexivity. Qed.

Lemma model_named_modules_read {X} (proj : World -> X) :
  preserves proj model_named_modules.
Proof. intros w. reflexivity. Qed.

Lemma preserves_py_div {X} (proj : World -> X) a b : preserves proj (py_div a b).
Proof. unfold py_div. destruct (Z.eqb b 0); intros w; reflexivity. Qed.

Lemma preserves_to_np_opt `{Externals} {X} (proj : World -> X) v :
  preserves proj (to_np_opt v).
Proof. destruct v; intros w; reflexivity. Qed.

Lemma model_writerow path r : preserves w_model (writerow path r).
Proof.
  intros w. unfold writerow. destruct (fs_room (w_fs w)) as [[|n]|]; reflexivity.
Qed.

Lemma handles_writerow path r : preserves open_handles (writerow path r).
Proof.
  intros w. unfold writerow. destruct (fs_room (w_fs w)) as [[|n]|]; reflexivity.
Qed.

Lemma model_with_open {A} fname (body : string -> M A) :
  (forall h, preserves w_model (body h)) -> preserves w_model (with_open fname body).
Proof.
  intros Hbody w. unfold with_open, open_w.
  destruct (existsb _ _); [reflexivity|].
  match goal with |- context [body ?h ?w1] =>
    specialize (Hbody h w1); destruct (body h w1) as [r w2] end.
  exact Hbody.
Qed.

(** However the body ends, [with] gives back the handle it took. *)
Lemma handles_with_open {A} fname (body : string -> M A) :
  (forall h, preserves open_handles (body h)) ->
  preserves open_handles (with_open fname body).
Proof.
  intros Hbody w. unfold with_open, open_w.
  destruct (existsb _ _); [reflexivity|].
  match goal with |- context [body ?h ?w1] =>
    specialize (Hbody h w1); destruct (body h w1) as [r w2] end.
  unfold open_handles in *. simpl in *. rewrite Hbody. simpl.
  now rewrite String.eqb_refl.
Qed.

Ltac frame_step :=
  first
    [ apply preserves_ret | apply preserves_raise
    | apply model_writer_call | apply model_pylogger_info
    | apply model_state_dict_read | apply model_named_modules_read
    | apply preserves_py_div | apply preserves_to_np_opt
    | apply model_writerow | apply handles_writerow
    | apply preserves_getitem
    | apply preserves_try_except_KeyError
    | apply preserves_if
    | apply preserves_for_each | apply preserves_for_each_acc
    | apply preserves_bind
    | match goal with |- forall _, _ => intro end ].

Ltac frame := repeat frame_step.

Lemma handles_csv_body `{Externals} path :
  preserves open_handles
    (writerow path CsvLogger.header ;;
     items <- model_state_dict ;;
     _ <- for_each_acc items (0, 0%Q) (CsvLogger.sparsity_step path) ;;
     ret tt).
Proof. unfold CsvLogger.sparsity_step. frame. Qed.

(** C8: the handle that [CsvLogger.log_weights_sparsity] opens is given
    back on every exit path: whether the call returns or raises (the file
    cannot be opened, or a write fails part-way), the handles open after it
    are those open before it. On a device that takes the header and then
    refuses the first data row, the call raises [OSError] with the header
    in the file and no handle left open. *)
Theorem csv_log_weights_sparsity_closes `{Externals} (w : World) (epoch : Z) :
  open_handles (snd (CsvLogger.log_weights_sparsity epoch w)) = open_handles w
  /\ fst (@CsvLogger.log_weights_sparsity sample_externals epoch world_short_of_room)
     = Raise OSError
  /\ fs_files (w_fs (snd (@CsvLogger.log_weights_sparsity sample_externals epoch
                            world_short_of_room)))
       !! "weights_sparsity.csv"%string
     = Some [CsvLogger.header]
  /\ open_handles (snd (@CsvLogger.log_weights_sparsity sample_externals epoch
                          world_short_of_room))
     = [].
Proof.
  split; [|split; [|split]].
  - unfold CsvLogger.log_weights_sparsity.
    apply handles_with_open. intros h. apply handles_csv_body.
  - vm_compute. reflexivity.
  - vm_compute. reflexivity.
  - vm_compute. reflexivity.
Qed.

(** ** Substrings *)

Lemma prefix_app sub s :
  String.prefix sub s = true <-> exists post, s = sub +:+ post.
Proof.
  revert s. induction sub as [|a sub IH]; intros s.
  - destruct s; simpl; split; intros _; eauto.
  - destruct s as [|b s]; simpl.
    + split; [discriminate | intros [post Hp]; discriminate].
    + destruct (ascii_dec a b) as [->|Hne].
      * rewrite IH. split; intros [post Hp]; exists post.
        -- rewrite Hp. reflexivity.
        -- injection Hp. auto.
      * split; [discriminate | intros [post Hp]; injection Hp; congruence].
Qed.

(** [contains sub s] holds exactly when [sub] occurs in [s]. *)
Lemma contains_spec sub s :
  contains sub s = true <-> exists pre post, s = pre +:+ sub +:+ post.
Proof.
  induction s as [|c s IH].
  - cbn [contains]. rewrite orb_false_r, prefix_app. split.
    + intros [post Hp]. exists ""%string, post. exact Hp.
    + intros [pre [post Hp]]. destruct pre; [eauto | discriminate].
  - cbn [contains]. rewrite orb_true_iff, prefix_app, IH. split.
    + intros [[post Hp] | [pre [post Hp]]].
      * exists ""%string, post. exact Hp.
      * exists (String c pre), post. rewrite Hp. reflexivity.
    + intros [pre [post Hp]]. destruct pre as [|c' pre].
      * left. eauto.
      * right. exists pre, post. injection Hp. auto.
Qed.

(** ** [TensorBoardLogger.log_weights_distribution] *)

Lemma flat_map_map {A B C} (f : B -> list C) (g : A -> B) l :
  flat_map f (map g l) = flat_map (fun x => f (g x)) l.
Proof. induction l as [|x l IH]; simpl; [reflexivity | now rewrite IH]. Qed.

Lemma append_suffix_neq (s suffix : string) :
  suffix <> ""%string -> s +:+ suffix <> s.
Proof.
  intros Hne. induction s as [|c s IH].
  - exact Hne.
  - intros Heq. injection Heq. exact IH.
Qed.

Lemma for_each_map {A B} (g : A -> B) l (body : B -> M unit) :
  for_each (map g l) body = for_each l (fun x => body (g x)).
Proof. induction l as [|x l IH]; simpl; [reflexivity | now rewrite IH]. Qed.

(** One turn of the loop of [log_weights_distribution], the gradient, when
    logged, being present. *)
Lemma distribution_step_emits `{Externals} (s : TensorBoardLogger.self)
    steps_completed name value (grad : option Tensor) :
  (TensorBoardLogger.log_gradients s = true -> grad <> None) ->
  emits
    ((if existsb (fun substring => contains substring (replace "." "/" name))
                 (TensorBoardLogger.logged_params s)
      then writer_call (add_histogram (replace "." "/" name) (to_np value)
                                      steps_completed)
      else ret tt) ;;
     (if TensorBoardLogger.log_gradients s
      then g <- to_np_opt grad ;;
           writer_call (add_histogram (replace "." "/" name +:+ "/grad") g
                                      steps_completed)
      else ret tt))
    tt
    (histogram_calls s steps_completed name value
       (if TensorBoardLogger.log_gradients s then option_list grad else [])).
Proof.
  intros Hon. unfold histogram_calls. cbv zeta.
  eapply emits_bind.
  - destruct (existsb _ _); [apply emits_writer_call | apply emits_ret].
  - destruct (TensorBoardLogger.log_gradients s).
    + destruct grad as [g|]; [|now destruct Hon].
      eapply (emits_bind _ _ (to_np g) _ [] [_]); [apply emits_ret|].
      apply emits_writer_call.
    + apply emits_ret.
Qed.

Lemma distribution_gradients_off `{Externals} logged steps_completed
    (named_params : list (string * nn_Parameter)) :
  emits
    (TensorBoardLogger.log_weights_distribution
       (TensorBoardLogger.mkSelf false logged) (Some named_params) steps_completed)
    tt
    (flat_map (fun tv => histogram_calls (TensorBoardLogger.mkSelf false logged)
                           steps_completed (fst tv) (p_value (snd tv)) [])
              named_params).
Proof.
  unfold TensorBoardLogger.log_weights_distribution.
  apply emits_for_each. intros [name [value grad]].
  apply (distribution_step_emits (TensorBoardLogger.mkSelf false logged)
           steps_completed name value grad).
  discriminate.
Qed.

Lemma distribution_gradients_on `{Externals} logged steps_completed
    (named_grads : list (string * (Tensor * Tensor))) :
  emits
    (TensorBoardLogger.log_weights_distribution
       (TensorBoardLogger.mkSelf true logged)
       (Some (map (fun nvg => (fst nvg, mkParameter (fst (snd nvg))
                                          (Some (snd (snd nvg))))) named_grads))
       steps_completed)
    tt
    (flat_map (fun nvg => histogram_calls (TensorBoardLogger.mkSelf true logged)
                            steps_completed (fst nvg) (fst (snd nvg))
                            [snd (snd nvg)])
              named_grads).
Proof.
  unfold TensorBoardLogger.log_weights_distribution.
  rewrite for_each_map.
  apply emits_for_each. intros [name [value g]].
  apply (distribution_step_emits (TensorBoardLogger.mkSelf true logged)
           steps_completed name value (Some g)).
  discriminate.
Qed.

Lemma histogram_calls_value `{Externals} (s : TensorBoardLogger.self)
    steps_completed name value grad :
  In (add_histogram (replace "." "/" name) (to_np value) steps_completed)
     (histogram_calls s steps_completed name value grad)
  <-> exists substring pre post,
        In substring (TensorBoardLogger.logged_params s)
        /\ replace "." "/" name = pre +:+ substring +:+ post.
Proof.
  unfold histogram_calls. cbv zeta. rewrite in_app_iff. split.
  - intros [Hin | Hin].
    + destruct (existsb _ _) eqn:Hex; [|destruct Hin].
      apply existsb_exists in Hex. destruct Hex as [sub [Hsub Hc]].
      apply contains_spec in Hc. destruct Hc as [pre [post Hc]].
      exists sub, pre, post. auto.
    + apply in_map_iff in Hin. destruct Hin as [g [Heq _]].
      injection Heq as Htag _. exfalso.
      revert Htag. apply append_suffix_neq. discriminate.
  - intros [sub [pre [post [Hsub Hc]]]]. left.
    assert (Hex : existsb (fun substring => contains substring (replace "." "/" name))
                          (TensorBoardLogger.logged_params s) = true).
    { apply existsb_exists. exists sub. split; [exact Hsub|].
      apply contains_spec. eauto. }
    rewrite Hex. left. reflexivity.
Qed.

(** C7: [log_weights_distribution] called with [named_params = None]
    returns at once: it ends normally and the world, with every output in
    it, is as before. *)
Theorem log_weights_distribution_none `{Externals}
    (s : TensorBoardLogger.self) (steps_completed : Z) (w : World) :
  TensorBoardLogger.log_weights_distribution s None steps_completed w = (Ok tt, w).
Proof.
  unfold TensorBoardLogger.log_weights_distribution, ret.
  (* the [None] branch is the early [return] *)
  reflexivity.
Qed.

(** C5: [log_weights_distribution] replaces ['.'] by ['/'] in each name
    and writes a histogram of the values exactly for the names in which,
    after that replacement, a configured substring occurs; with gradient
    logging off nothing else is written, and with it on (gradients
    present) each parameter also gets a histogram of its gradient under
    the name suffixed ['/grad']. Under the
    configuration of [__init__], ['layer1.bias'] gives no histogram and
    ['layer1.weight'] exactly one; with gradient logging on and a gradient
    present, ['layer1.weight'] gives exactly two, the second suffixed
    ['/grad']. *)
Theorem log_weights_distribution_writes `{Externals}
    (logged : list string) (steps_completed : Z) (w : World) :
  (forall named_params : list (string * nn_Parameter),
     let s := TensorBoardLogger.mkSelf false logged in
     TensorBoardLogger.log_weights_distribution s (Some named_params) steps_completed w
     = (Ok tt,
        add_calls
          (flat_map (fun tv => histogram_calls s steps_completed (fst tv)
                                 (p_value (snd tv)) []) named_params) w))
  /\ (forall named_grads : list (string * (Tensor * Tensor)),
        let s := TensorBoardLogger.mkSelf true logged in
        TensorBoardLogger.log_weights_distribution s
          (Some (map (fun nvg => (fst nvg, mkParameter (fst (snd nvg))
                                             (Some (snd (snd nvg))))) named_grads))
          steps_completed w
        = (Ok tt,
           add_calls
             (flat_map (fun nvg => histogram_calls s steps_completed (fst nvg)
                                     (fst (snd nvg)) [snd (snd nvg)]) named_grads) w))
  /\ (forall (s : TensorBoardLogger.self) name value grad,
        In (add_histogram (replace "." "/" name) (to_np value) steps_completed)
           (histogram_calls s steps_completed name value grad)
        <-> exists substring pre post,
              In substring (TensorBoardLogger.logged_params s)
              /\ replace "." "/" name = pre +:+ substring +:+ post)
  /\ (forall value grad,
        TensorBoardLogger.log_weights_distribution TensorBoardLogger.init
          (Some [("layer1.bias"%string, mkParameter value grad)]) steps_completed w
        = (Ok tt, w)
        /\ TensorBoardLogger.log_weights_distribution TensorBoardLogger.init
             (Some [("layer1.weight"%string, mkParameter value grad)])
             steps_completed w
           = (Ok tt,
              add_calls [add_histogram "layer1/weight" (to_np value) steps_completed] w))
  /\ (forall value grad,
        TensorBoardLogger.log_weights_distribution
          (TensorBoardLogger.mkSelf true ["weight"%string])
          (Some [("layer1.weight"%string, mkParameter value (Some grad))])
          steps_completed w
        = (Ok tt,
           add_calls [add_histogram "layer1/weight" (to_np value) steps_completed;
                      add_histogram "layer1/weight/grad" (to_np grad) steps_completed]
                     w)).
Proof.
  split; [|split; [|split; [|split]]].
  - intros named_params s. apply distribution_gradients_off.
  - intros named_grads s. apply distribution_gradients_on.
  - intros s name value grad. apply histogram_calls_value.
  - intros value grad. split.
    + rewrite (distribution_gradients_off ["weight"%string] steps_completed
                 [("layer1.bias"%string, mkParameter value grad)] w).
      simpl. now rewrite add_calls_nil.
    + rewrite (distribution_gradients_off ["weight"%string] steps_completed
                 [("layer1.weight"%string, mkParameter value grad)] w).
      reflexivity.
  - intros value grad.
    rewrite (distribution_gradients_on ["weight"%string] steps_completed
               [("layer1.weight"%string, (value, grad))] w).
    reflexivity.
Qed.

(** ** [TensorBoardLogger.log_model_buffers] *)

Lemma getitem_lookup sd key w :
  getitem sd key w
  = match sd_lookup sd key with
    | Some t => (Ok t, w)
    | None => (Raise (KeyError key), w)
    end.
Proof.
  induction sd as [|[k t] sd IH]; simpl; [reflexivity|].
  destruct (String.eqb k key); [reflexivity | exact IH].
Qed.

Lemma collect_values_run sd buffer_names :
  forall values w,
    for_each_acc buffer_names values (fun values buf_name =>
      try_except_KeyError
        (t <- getitem sd buf_name ;; ret (values ++ view_flat_tolist t))
        (ret values)) w
    = (Ok (values ++ collected sd buffer_names), w).
Proof.
  induction buffer_names as [|b names IH]; intros values w; simpl.
  - unfold ret, collected; simpl. now rewrite app_nil_r.
  - unfold bind at 1. unfold try_except_KeyError, bind at 1.
    rewrite getitem_lookup. unfold collected; simpl.
    destruct (sd_lookup sd b) as [t|]; unfold ret; rewrite IH.
    + unfold collected. now rewrite app_assoc.
    + reflexivity.
Qed.

Lemma collect_values_emits sd buffer_names :
  emits (TensorBoardLogger.collect_values sd buffer_names)
        (collected sd buffer_names) [].
Proof.
  intros w. unfold TensorBoardLogger.collect_values.
  rewrite collect_values_run. now rewrite add_calls_nil.
Qed.

(** A loop whose turns change nothing ends at the first turn that raises. *)
Lemma for_each_first_raise {A} (body : A -> M unit) (p : A -> bool) e l :
  (forall x w, body x w = (if p x then Raise e else Ok tt, w)) ->
  forall w, for_each l body w = (if existsb p l then Raise e else Ok tt, w).
Proof.
  intros Hbody. induction l as [|x l IH]; intros w; simpl; [reflexivity|].
  unfold bind. rewrite Hbody. destruct (p x); simpl; [reflexivity | apply IH].
Qed.

(** The two ways a call of [log_model_buffers] ends. *)
Lemma log_model_buffers_run buffer_names tag_prefix epoch completed total freq w :
  TensorBoardLogger.log_model_buffers buffer_names tag_prefix epoch completed total freq w
  = (if existsb (has_values buffer_names) (named_modules "" (w_model w))
     then Raise AttributeError
     else Ok tt, w).
Proof.
  unfold TensorBoardLogger.log_model_buffers, model_named_modules.
  unfold bind at 1.
  apply for_each_first_raise. intros [module_name module] w'.
  unfold has_values. cbn [fst snd].
  destruct (has_children module); [reflexivity|].
  unfold bind. rewrite (collect_values_emits _ _ w'), add_calls_nil.
  destruct (collected (state_dict "" module) buffer_names); reflexivity.
Qed.

(** C6, the code on a leaf that holds a listed buffer:
    [log_model_buffers] skips the names a module lacks without an error
    and collects the values of those it holds, but it hands them to
    [add_scalars] as a list: at the first leaf from which a value was
    collected the call raises [AttributeError], and nothing is written,
    for that module or any other. With the buffers [running_mean] and
    [running_var] asked of a model whose leaf [bn] holds
    [running_mean = [1, 0, 0, 1]], the values are collected and the call
    raises, where the claim has one scalar group at ['stats/bn']. *)
Theorem log_model_buffers_raises_on_values
    (buffer_names : list string) (tag_prefix : string)
    (epoch completed total freq : Z) (w : World) :
  TensorBoardLogger.log_model_buffers buffer_names tag_prefix epoch completed total freq w
  = (if existsb (has_values buffer_names) (named_modules "" (w_model w))
     then Raise AttributeError
     else Ok tt, w)
  /\ In ("bn"%string, Mod [("running_mean"%string, bias_4)] [])
        (leaves model_two_leaves)
  /\ collected (state_dict "" (Mod [("running_mean"%string, bias_4)] []))
               ["running_mean"%string; "running_var"%string]
     = [1; 0; 0; 1]%Q
  /\ TensorBoardLogger.log_model_buffers
       ["running_mean"%string; "running_var"%string] "stats"%string 3 4 10 0
       (fresh_world model_two_leaves)
     = (Raise AttributeError, fresh_world model_two_leaves).
Proof.
  split; [apply log_model_buffers_run|].
  split; [vm_compute; right; left; reflexivity|].
  split; [reflexivity|].
  rewrite log_model_buffers_run. reflexivity.
Qed.

(** ** The loggers only read the model *)

(** C9: every logging method of every logger leaves the model as it
    found it, whether the call returns or raises: the model of the world
    after the call is the model before it. *)
Theorem loggers_leave_model_unchanged `{Externals} (w : World) :
  (forall stats_dict epoch completed total freq,
     w_model (snd (TensorBoardLogger.log_training_progress
                     stats_dict epoch completed total freq w)) = w_model w)
  /\ (forall phase stat_name activation_stats epoch,
        w_model (snd (TensorBoardLogger.log_activation_statistic
                        phase stat_name activation_stats epoch w)) = w_model w)
  /\ (forall epoch,
        w_model (snd (TensorBoardLogger.log_weights_sparsity epoch w)) = w_model w)
  /\ (forall epoch multi_graphs,
        w_model (snd (TensorBoardLogger.log_weights_filter_magnitude
                        epoch multi_graphs w)) = w_model w)
  /\ (forall s named_params steps_completed,
        w_model (snd (TensorBoardLogger.log_weights_distribution
                        s named_params steps_completed w)) = w_model w)
  /\ (forall buffer_names tag_prefix epoch completed total freq,
        w_model (snd (TensorBoardLogger.log_model_buffers
                        buffer_names tag_prefix epoch completed total freq w))
        = w_model w)
  /\ (forall epoch,
        w_model (snd (PythonLogger.log_weights_sparsity epoch w)) = w_model w)
  /\ (forall epoch,
        w_model (snd (CsvLogger.log_weights_sparsity epoch w)) = w_model w).
Proof.
  split; [|split; [|split; [|split; [|split; [|split; [|split]]]]]]; intros.
  - revert w. change (preserves w_model
      (TensorBoardLogger.log_training_progress stats_dict epoch completed total freq)).
    unfold TensorBoardLogger.log_training_progress. frame.
  - revert w. change (preserves w_model
      (TensorBoardLogger.log_activation_statistic phase stat_name activation_stats epoch)).
    unfold TensorBoardLogger.log_activation_statistic. frame.
  - revert w. change (preserves w_model (TensorBoardLogger.log_weights_sparsity epoch)).
    unfold TensorBoardLogger.log_weights_sparsity, TensorBoardLogger.sparsity_step.
    frame.
  - revert w. change (preserves w_model
      (TensorBoardLogger.log_weights_filter_magnitude epoch multi_graphs)).
    unfold TensorBoardLogger.log_weights_filter_magnitude, writer_add_scalars.
    frame.
  - revert w. change (preserves w_model
      (TensorBoardLogger.log_weights_distribution s named_params steps_completed)).
    unfold TensorBoardLogger.log_weights_distribution.
    destruct named_params; frame.
  - revert w. change (preserves w_model
      (TensorBoardLogger.log_model_buffers buffer_names tag_prefix epoch completed
         total freq)).
    unfold TensorBoardLogger.log_model_buffers, TensorBoardLogger.collect_values,
      writer_add_scalars.
    frame.
    match goal with |- preserves _ (match ?v with _ => _ end) => destruct v end; frame.
  - unfold PythonLogger.log_weights_sparsity. cbv zeta.
    generalize (weights_sparsity_tbl_summary (w_model w) [2; 3; 4]%nat).
    intros t_total. revert w.
    match goal with |- forall w, w_model (snd (?m w)) = _ =>
      change (preserves w_model m) end.
    frame.
  - revert w. change (preserves w_model (CsvLogger.log_weights_sparsity epoch)).
    unfold CsvLogger.log_weights_sparsity, CsvLogger.sparsity_step.
    apply model_with_open. frame.
Qed.

(** ** The [freq] argument *)

(** C10: two calls of [log_training_progress], and likewise of
    [log_model_buffers], that differ only in [freq] end the same way in
    the same world: [freq] has no effect on what is written. *)
Theorem freq_has_no_effect
    (stats_dict : string * list (string * Q))
    (buffer_names : list string) (tag_prefix : string)
    (epoch completed total freq1 freq2 : Z) (w : World) :
  TensorBoardLogger.log_training_progress stats_dict epoch completed total freq1 w
  = TensorBoardLogger.log_training_progress stats_dict epoch completed total freq2 w
  /\ TensorBoardLogger.log_model_buffers buffer_names tag_prefix epoch completed
       total freq1 w
     = TensorBoardLogger.log_model_buffers buffer_names tag_prefix epoch completed
         total freq2 w.
Proof. split; reflexivity. Qed.

(** * Further properties of the loggers *)

(** ** What a computation added to the writer *)

Lemma skipn_length_app {A} (l l' : list A) : skipn (length l) (l ++ l') = l'.
Proof. induction l as [|x l IH]; simpl; [reflexivity | exact IH]. Qed.

Lemma written_emits {A} (m : M A) (r : result A) cs w :
  m w = (r, add_calls cs w) -> written m w = cs.
Proof.
  intros Hrun. unfold written. rewrite Hrun. simpl. apply skipn_length_app.
Qed.

Lemma for_each_ext {A} (body1 body2 : A -> M unit) l :
  (forall x, body1 x = body2 x) -> for_each l body1 = for_each l body2.
Proof.
  intros Hext. induction l as [|x l IH]; simpl; [reflexivity|].
  now rewrite Hext, IH.
Qed.

(** ** [TensorBoardLogger.log_activation_statistic] *)

(** X1: [log_activation_statistic] always returns and makes one
    [add_scalar] call per entry of [activation_stats], in order, under
    [stat_name + '/activations/' + phase + '/' + tag], the tag taken as it
    is, at step [epoch]. *)
Theorem log_activation_statistic_writes
    (phase stat_name : string) (activation_stats : list (string * Q))
    (epoch : Z) (w : World) :
  TensorBoardLogger.log_activation_statistic phase stat_name activation_stats epoch w
  = (Ok tt,
     add_calls
       (map (fun tv =>
               add_scalar ((stat_name +:+ "/activations/" +:+ phase +:+ "/") +:+ fst tv)
                          (snd tv) epoch) activation_stats) w)
  /\ map call_step
       (written (TensorBoardLogger.log_activation_statistic phase stat_name
                   activation_stats epoch) w)
     = map (fun _ => epoch) activation_stats.
Proof.
  assert (Hrun :
    TensorBoardLogger.log_activation_statistic phase stat_name activation_stats epoch w
    = (Ok tt,
       add_calls
         (map (fun tv =>
                 add_scalar ((stat_name +:+ "/activations/" +:+ phase +:+ "/") +:+ fst tv)
                            (snd tv) epoch) activation_stats) w)).
  { unfold TensorBoardLogger.log_activation_statistic.
    rewrite <- flat_map_single.
    apply emits_for_each. intros x. apply emits_writer_call. }
  split; [exact Hrun|].
  rewrite (written_emits _ _ _ _ Hrun), map_map. reflexivity.
Qed.

(** ** [TensorBoardLogger.log_weights_filter_magnitude] *)

Lemma dim_in_4 n : dim_in n [4%nat] = true <-> n = 4%nat.
Proof.
  unfold dim_in. simpl. rewrite orb_false_r. apply Nat.eqb_eq.
Qed.

(** X2: [log_weights_filter_magnitude] never writes. On a model without
    a state-dict entry of rank exactly 4 it returns without a call; on any
    other model it raises [AttributeError] at the first such entry, because
    it hands the filter norms to [add_scalars] as a list; in both cases
    the world is as before, and [multi_graphs] plays no part. *)
Theorem log_weights_filter_magnitude_outcome `{Externals}
    (epoch : Z) (multi_graphs : bool) (w : World) :
  TensorBoardLogger.log_weights_filter_magnitude epoch multi_graphs w
  = (if existsb is_filter (state_dict "" (w_model w))
     then Raise AttributeError
     else Ok tt, w)
  /\ (forall np, is_filter np = true <-> dim (snd np) = 4%nat)
  /\ fst (@TensorBoardLogger.log_weights_filter_magnitude sample_externals epoch
            multi_graphs (fresh_world model_conv))
     = Raise AttributeError
  /\ fst (@TensorBoardLogger.log_weights_filter_magnitude sample_externals epoch
            multi_graphs (fresh_world model_dense))
     = Ok tt.
Proof.
  assert (Hrun : forall E w',
    @TensorBoardLogger.log_weights_filter_magnitude E epoch multi_graphs w'
    = (if existsb is_filter (state_dict "" (w_model w'))
       then Raise AttributeError
       else Ok tt, w')).
  { intros E w'.
    unfold TensorBoardLogger.log_weights_filter_magnitude, model_state_dict.
    unfold bind at 1.
    apply for_each_first_raise. intros np w''. unfold is_filter.
    destruct (dim_in (dim (snd np)) [4%nat]); reflexivity. }
  split; [apply Hrun|].
  split; [intros np; apply dim_in_4|].
  split; rewrite Hrun; reflexivity.
Qed.

(** ** Keys and steps of [log_training_progress] *)

Lemma replace_idempotent old new s :
  new <> old -> replace old new (replace old new s) = replace old new s.
Proof.
  intros Hne. induction s as [|c s IH]; simpl; [reflexivity|].
  rewrite IH. f_equal.
  destruct (Ascii.eqb c old) eqn:Hc; [|now rewrite Hc].
  destruct (Ascii.eqb new old) eqn:Hn; [|reflexivity].
  apply Ascii.eqb_eq in Hn. contradiction.
Qed.

Lemma log_training_progress_emits stats_dict epoch completed total freq :
  emits (TensorBoardLogger.log_training_progress stats_dict epoch completed total freq)
        tt
        (map (fun tv => add_scalar (fst stats_dict +:+ replace " " "_" (fst tv))
                                   (snd tv) (total * epoch + completed))
             (snd stats_dict)).
Proof.
  unfold TensorBoardLogger.log_training_progress.
  rewrite <- flat_map_single.
  apply emits_for_each. intros x. apply emits_writer_call.
Qed.

(** X13: the metric part of a key written by [log_training_progress]
    never holds a space, and metric names that differ only in spaces
    against underscores are written under the same keys: giving the names
    already sanitised changes nothing. *)
Theorem metric_names_sanitized
    (prefix : string) (stats : list (string * Q))
    (epoch completed total freq : Z) (w : World) :
  (forall tag, ~ In " "%char (list_ascii_of_string (replace " " "_" tag)))
  /\ TensorBoardLogger.log_training_progress
       (prefix, map (fun tv => (replace " " "_" (fst tv), snd tv)) stats)
       epoch completed total freq w
     = TensorBoardLogger.log_training_progress (prefix, stats)
         epoch completed total freq w.
Proof.
  split.
  - intros tag Hin. rewrite replace_chars in Hin.
    apply in_map_iff in Hin. destruct Hin as [c [Hc _]].
    destruct (Ascii.eqb c " ") eqn:Hsp; [discriminate|].
    apply Ascii.eqb_neq in Hsp. contradiction.
  - unfold TensorBoardLogger.log_training_progress. cbn [fst snd].
    rewrite for_each_map.
    match goal with |- for_each ?l ?b1 w = for_each ?l ?b2 w =>
      rewrite (for_each_ext b1 b2 l); [reflexivity|] end.
    intros [tag value].
    cbn [fst snd]. rewrite replace_idempotent; [reflexivity | discriminate].
Qed.

(** [log_model_buffers] adds no call to the writer. *)
Lemma log_model_buffers_written buffer_names tag_prefix epoch completed total freq w :
  written (TensorBoardLogger.log_model_buffers
             buffer_names tag_prefix epoch completed total freq) w
  = [].
Proof.
  eapply written_emits. rewrite log_model_buffers_run, add_calls_nil. reflexivity.
Qed.

Lemma training_progress_step stats_dict epoch completed total freq w c :
  In c (written (TensorBoardLogger.log_training_progress
                   stats_dict epoch completed total freq) w) ->
  call_step c = total * epoch + completed.
Proof.
  rewrite (written_emits _ _ _ _
             (log_training_progress_emits stats_dict epoch completed total freq w)).
  intros Hin. apply in_map_iff in Hin. destruct Hin as [tv [<- _]]. reflexivity.
Qed.

Lemma model_buffers_step buffer_names tag_prefix epoch completed total freq w c :
  In c (written (TensorBoardLogger.log_model_buffers
                   buffer_names tag_prefix epoch completed total freq) w) ->
  call_step c = total * epoch + completed.
Proof.
  rewrite log_model_buffers_written. intros [].
Qed.

(** X12: with [0 <= completed < total] within each epoch, the global
    steps grow with (epoch, completed): whatever [log_training_progress]
    or [log_model_buffers] writes at an earlier point of training carries
    a smaller step than whatever either writes at a later point. *)
Theorem global_steps_increase
    (stats1 stats2 : string * list (string * Q))
    (names1 names2 : list string) (prefix1 prefix2 : string)
    (total epoch1 completed1 epoch2 completed2 freq : Z) (w1 w2 : World) :
  0 <= completed1 < total ->
  0 <= completed2 < total ->
  epoch1 < epoch2 \/ (epoch1 = epoch2 /\ completed1 < completed2) ->
  forall a b,
    In a (written (TensorBoardLogger.log_training_progress
                     stats1 epoch1 completed1 total freq) w1
          ++ written (TensorBoardLogger.log_model_buffers
                        names1 prefix1 epoch1 completed1 total freq) w1) ->
    In b (written (TensorBoardLogger.log_training_progress
                     stats2 epoch2 completed2 total freq) w2
          ++ written (TensorBoardLogger.log_model_buffers
                        names2 prefix2 epoch2 completed2 total freq) w2) ->
    call_step a < call_step b.
Proof.
  intros Hc1 Hc2 Horder a b Ha Hb.
  assert (Hsa : call_step a = total * epoch1 + completed1).
  { apply in_app_or in Ha. destruct Ha as [Ha | Ha].
    - eapply training_progress_step; exact Ha.
    - eapply model_buffers_step; exact Ha. }
  assert (Hsb : call_step b = total * epoch2 + completed2).
  { apply in_app_or in Hb. destruct Hb as [Hb | Hb].
    - eapply training_progress_step; exact Hb.
    - eapply model_buffers_step; exact Hb. }
  rewrite Hsa, Hsb. destruct Horder as [Hlt | [-> Hlt]]; nia.
Qed.

Lemma global_steps_increase_witness :
  (0 <= 9 < 10 /\ 0 <= 0 < 10 /\ 2 < 3)
  /\ forall a b,
    In a (written (TensorBoardLogger.log_training_progress
                     ("Perf/"%string, [("Top 1"%string, 1 # 2)]) 2 9 10 0)
                  (fresh_world model_two_leaves)
          ++ written (TensorBoardLogger.log_model_buffers
                        ["running_mean"%string] "stats"%string 2 9 10 0)
                     (fresh_world model_two_leaves)) ->
    In b (written (TensorBoardLogger.log_training_progress
                     ("Perf/"%string, [("Top 1"%string, 3 # 4)]) 3 0 10 0)
                  (fresh_world model_two_leaves)
          ++ written (TensorBoardLogger.log_model_buffers
                        ["running_mean"%string] "stats"%string 3 0 10 0)
                     (fresh_world model_two_leaves)) ->
    call_step a < call_step b.
Proof.
  split; [lia|].
  apply (global_steps_increase
           ("Perf/"%string, [("Top 1"%string, 1 # 2)])
           ("Perf/"%string, [("Top 1"%string, 3 # 4)])
           ["running_mean"%string] ["running_mean"%string]
           "stats"%string "stats"%string 10 2 9 3 0 0
           (fresh_world model_two_leaves) (fresh_world model_two_leaves));
    lia.
Defined.

(** ** Gradient histograms *)

Lemma histogram_calls_length `{Externals} s steps_completed name value grad :
  length (histogram_calls s steps_completed name value grad)
  = ((if is_logged (TensorBoardLogger.logged_params s) name then 1 else 0)
     + length grad)%nat.
Proof.
  unfold histogram_calls, is_logged. cbv zeta.
  rewrite length_app, length_map.
  now destruct (existsb _ _).
Qed.

(** X4: with gradient logging on and every gradient present,
    [log_weights_distribution] returns and writes the gradient histogram
    of every parameter, whether or not a configured substring occurs in
    its name: the calls number the parameters plus those whose name
    holds a configured substring, and with no substring configured the
    gradient histograms are all that is written. *)
Theorem gradient_histograms_for_every_name `{Externals}
    (logged : list string) (named_grads : list (string * (Tensor * Tensor)))
    (steps_completed : Z) (w : World) :
  let run :=
    TensorBoardLogger.log_weights_distribution
      (TensorBoardLogger.mkSelf true logged)
      (Some (map (fun nvg => (fst nvg, mkParameter (fst (snd nvg))
                                         (Some (snd (snd nvg))))) named_grads))
      steps_completed in
  fst (run w) = Ok tt
  /\ (forall nvg,
        In nvg named_grads ->
        In (add_histogram (replace "." "/" (fst nvg) +:+ "/grad")
                          (to_np (snd (snd nvg))) steps_completed)
           (written run w))
  /\ length (written run w)
     = (length (List.filter (fun nvg => is_logged logged (fst nvg)) named_grads)
        + length named_grads)%nat
  /\ (logged = [] ->
      written run w
      = map (fun nvg => add_histogram (replace "." "/" (fst nvg) +:+ "/grad")
                                      (to_np (snd (snd nvg))) steps_completed)
            named_grads).
Proof.
  intros run.
  pose proof (distribution_gradients_on logged steps_completed named_grads w) as Hrun.
  fold run in Hrun.
  rewrite (written_emits _ _ _ _ Hrun). rewrite Hrun.
  split; [reflexivity | split; [|split]].
  - intros nvg Hin. apply in_flat_map. exists nvg. split; [exact Hin|].
    unfold histogram_calls. cbv zeta. apply in_or_app. right. left. reflexivity.
  - clear Hrun. induction named_grads as [|nvg rest IH]; [reflexivity|].
    cbn [flat_map List.filter]. rewrite length_app, IH, histogram_calls_length.
    cbn [TensorBoardLogger.logged_params].
    destruct (is_logged logged (fst nvg)); simpl; lia.
  - intros ->. clear Hrun.
    induction named_grads as [|nvg rest IH]; [reflexivity|].
    cbn [flat_map map]. rewrite IH. reflexivity.
Qed.

(** ** The sparsity report and the parameters of other ranks *)

Lemma sparsity_fold_filter `{Externals} items :
  forall acc,
    fold_left sparsity_next items acc
    = fold_left sparsity_next (List.filter qualifies items) acc.
Proof.
  induction items as [|np items IH]; intros acc; [reflexivity|].
  cbn [fold_left List.filter].
  destruct (qualifies np) eqn:Hq.
  - cbn [fold_left]. apply IH.
  - rewrite <- IH. f_equal. unfold sparsity_next. rewrite Hq. now destruct acc.
Qed.

(** X5: what [TensorBoardLogger.log_weights_sparsity] writes, and whether
    it returns or raises, depends on the rank-2/3/4 entries of the state
    dict alone: two models with the same such entries, whatever their
    biases and other entries, get the same scalars and the same outcome. *)
Theorem log_weights_sparsity_ignores_other_ranks `{Externals}
    (epoch : Z) (w1 w2 : World) :
  qualifying_params w1 = qualifying_params w2 ->
  fst (TensorBoardLogger.log_weights_sparsity epoch w1)
  = fst (TensorBoardLogger.log_weights_sparsity epoch w2)
  /\ written (TensorBoardLogger.log_weights_sparsity epoch) w1
     = written (TensorBoardLogger.log_weights_sparsity epoch) w2.
Proof.
  intros Hsame.
  assert (Hrun : forall w,
    exists r cs,
      TensorBoardLogger.log_weights_sparsity epoch w = (r, add_calls cs w)
      /\ (r, cs)
         = (let acc := fold_left sparsity_next (qualifying_params w) (0, 0%Q) in
            let calls := flat_map (sparsity_calls epoch) (qualifying_params w) in
            if Z.eqb (fst acc) 0
            then (Raise ZeroDivisionError, calls)
            else (Ok tt,
                  calls ++ [add_scalar "sparsity/weights/total"
                              (100 * (1 - snd acc / inject_Z (fst acc)))%Q epoch]))).
  { intros w. pose proof (log_weights_sparsity_run epoch w) as Hw. cbv zeta in Hw.
    rewrite sparsity_fold_filter in Hw. fold (qualifying_params w) in Hw.
    cbv zeta.
    destruct (Z.eqb (fst (fold_left sparsity_next (qualifying_params w) (0, 0%Q))) 0);
      eauto. }
  destruct (Hrun w1) as [r1 [cs1 [Hrun1 Hdef1]]].
  destruct (Hrun w2) as [r2 [cs2 [Hrun2 Hdef2]]].
  rewrite Hsame in Hdef1. rewrite <- Hdef2 in Hdef1.
  injection Hdef1 as -> ->.
  rewrite (written_emits _ _ _ _ Hrun1), (written_emits _ _ _ _ Hrun2).
  rewrite Hrun1, Hrun2. split; reflexivity.
Qed.

Lemma log_weights_sparsity_ignores_other_ranks_witness :
  qualifying_params (fresh_world model_dense)
  = qualifying_params (fresh_world model_weight_only)
  /\ fst (@TensorBoardLogger.log_weights_sparsity sample_externals 7
            (fresh_world model_dense))
     = fst (@TensorBoardLogger.log_weights_sparsity sample_externals 7
              (fresh_world model_weight_only))
  /\ written (@TensorBoardLogger.log_weights_sparsity sample_externals 7)
             (fresh_world model_dense)
     = written (@TensorBoardLogger.log_weights_sparsity sample_externals 7)
               (fresh_world model_weight_only).
Proof.
  split; [reflexivity|].
  apply (@log_weights_sparsity_ignores_other_ranks sample_externals 7
           (fresh_world model_dense) (fresh_world model_weight_only)).
  reflexivity.
Defined.

(** ** The range of the aggregate sparsity *)

From Stdlib Require Import Lqa.

Lemma numel_nonneg t : 0 <= numel t.
Proof. unfold numel. lia. Qed.

Lemma total_numel_nonneg ps : 0 <= total_numel ps.
Proof.
  induction ps as [|np ps IH]; unfold total_numel in *; simpl; [lia|].
  pose proof (numel_nonneg (snd np)). lia.
Qed.

Lemma total_dense_bounds `{Externals} ps :
  Forall (fun np => 0 <= density (snd np) <= 1)%Q ps ->
  (0 <= total_dense ps <= inject_Z (total_numel ps))%Q.
Proof.
  induction 1 as [|np ps [Hlo Hhi] _ IH]; unfold total_dense, total_numel in *; simpl.
  - split; apply Qle_refl.
  - rewrite inject_Z_plus.
    assert (Hn : (0 <= inject_Z (numel (snd np)))%Q).
    { change 0%Q with (inject_Z 0). rewrite <- Zle_Qle. apply numel_nonneg. }
    assert (H0 : (0 <= density (snd np) * inject_Z (numel (snd np)))%Q)
      by (apply Qmult_le_0_compat; assumption).
    assert (H1 : (density (snd np) * inject_Z (numel (snd np))
                  <= inject_Z (numel (snd np)))%Q).
    { rewrite <- (Qmult_1_l (inject_Z (numel (snd np)))) at 2.
      apply Qmult_le_compat_r; assumption. }
    destruct IH as [IHlo IHhi]. split; lra.
Qed.

(** X6: when the rank-2/3/4 parameters hold at least one element in total
    and each density lies between 0 and 1, the aggregate that
    [TensorBoardLogger.log_weights_sparsity] writes last, under
    ['sparsity/weights/total'], is a percentage between 0 and 100. *)
Theorem aggregate_sparsity_in_range `{Externals} (w : World) (epoch : Z) :
  total_numel (qualifying_params w) <> 0 ->
  Forall (fun np => 0 <= density (snd np) <= 1)%Q (qualifying_params w) ->
  exists total : Q,
    written (TensorBoardLogger.log_weights_sparsity epoch) w
    = flat_map (sparsity_calls epoch) (qualifying_params w)
      ++ [add_scalar "sparsity/weights/total" total epoch]
    /\ (0 <= total <= 100)%Q.
Proof.
  intros Hpos Hrange.
  pose proof (log_weights_sparsity_run epoch w) as Hrun. cbv zeta in Hrun.
  pose proof (sparsity_fold_fst (state_dict "" (w_model w)) (0, 0%Q)) as Hfst.
  pose proof (sparsity_fold_snd (state_dict "" (w_model w)) (0, 0%Q)) as Hsnd.
  simpl fst in Hfst. simpl snd in Hsnd. fold (qualifying_params w) in Hfst, Hsnd.
  rewrite Z.add_0_l in Hfst. rewrite Qplus_0_l in Hsnd.
  destruct (Z.eqb_spec (fst (fold_left sparsity_next (state_dict "" (w_model w)) (0, 0%Q))) 0)
    as [Hz|Hnz]; [rewrite Hfst in Hz; contradiction|].
  eexists. split; [exact (written_emits _ _ _ _ Hrun)|].
  rewrite Hfst, Hsnd.
  destruct (total_dense_bounds _ Hrange) as [Hlo Hhi].
  assert (Hn : (0 < inject_Z (total_numel (qualifying_params w)))%Q).
  { change 0%Q with (inject_Z 0). rewrite <- Zlt_Qlt.
    pose proof (total_numel_nonneg (qualifying_params w)). lia. }
  assert (Hq0 : (0 <= total_dense (qualifying_params w)
                      / inject_Z (total_numel (qualifying_params w)))%Q).
  { apply Qle_shift_div_l; [exact Hn|]. lra. }
  assert (Hq1 : (total_dense (qualifying_params w)
                 / inject_Z (total_numel (qualifying_params w)) <= 1)%Q).
  { apply Qle_shift_div_r; [exact Hn|]. lra. }
  split; lra.
Qed.

Lemma aggregate_sparsity_in_range_witness :
  (total_numel (qualifying_params (fresh_world model_dense)) <> 0
   /\ Forall (fun np => 0 <= @density sample_externals (snd np) <= 1)%Q
             (qualifying_params (fresh_world model_dense)))
  /\ exists total : Q,
       written (@TensorBoardLogger.log_weights_sparsity sample_externals 7)
               (fresh_world model_dense)
       = flat_map (@sparsity_calls sample_externals 7)
                  (qualifying_params (fresh_world model_dense))
         ++ [add_scalar "sparsity/weights/total" total 7]
       /\ (0 <= total <= 100)%Q.
Proof.
  assert (Hpos : total_numel (qualifying_params (fresh_world model_dense)) <> 0)
    by (vm_compute; discriminate).
  assert (Hrange : Forall (fun np => 0 <= @density sample_externals (snd np) <= 1)%Q
                          (qualifying_params (fresh_world model_dense))).
  { repeat constructor; vm_compute; discriminate. }
  split; [split; assumption|].
  exact (@aggregate_sparsity_in_range sample_externals (fresh_world model_dense) 7
           Hpos Hrange).
Defined.

(** ** More on [CsvLogger.log_weights_sparsity] *)

(** The call when the file can be opened and every row written. *)
Lemma csv_log_weights_sparsity_ok `{Externals} (w : World) (epoch : Z) :
  existsb (String.eqb (get_fname "weights_sparsity")) (fs_denied (w_fs w)) = false ->
  has_room (S (length (qualifying_params w))) (fs_room (w_fs w)) ->
  CsvLogger.log_weights_sparsity epoch w
  = (Ok tt,
     file_written (get_fname "weights_sparsity")
       (CsvLogger.header :: map csv_row (qualifying_params w))
       (S (length (qualifying_params w))) w).
Proof.
  intros Hopen Hroom.
  unfold CsvLogger.log_weights_sparsity, with_open, open_w. rewrite Hopen.
  set (fname := get_fname "weights_sparsity").
  set (w1 := set_fs _ w).
  assert (Hl1 : fs_files (w_fs w1) !! fname = Some []).
  { unfold w1, set_fs; simpl. apply lookup_insert_eq. }
  assert (Hr1 : has_room 1 (fs_room (w_fs w1))).
  { unfold w1, set_fs; simpl.
    destruct (fs_room (w_fs w)); simpl in *; [lia | exact I]. }
  unfold bind at 1. rewrite (writerow_ok _ _ _ _ Hl1 Hr1).
  unfold bind at 1. unfold model_state_dict.
  unfold bind at 1.
  rewrite (csv_loop_ok fname _ _ _ ([] ++ [CsvLogger.header])).
  - unfold ret. rewrite file_written_twice. simpl app.
    unfold close, file_written, set_fs, w1; simpl.
    rewrite String.eqb_refl, insert_insert_eq. reflexivity.
  - unfold file_written, set_fs; simpl. apply lookup_insert_eq.
  - unfold file_written, set_fs, w1; simpl.
    unfold qualifying_params in Hroom.
    destruct (fs_room (w_fs w)); simpl in *; [lia | exact I].
Qed.

(** X7: on a model without a parameter of rank 2, 3 or 4 the two loggers
    part ways: [CsvLogger.log_weights_sparsity], which never divides,
    returns with a file that holds the header row alone, while
    [TensorBoardLogger.log_weights_sparsity] raises [ZeroDivisionError]. *)
Theorem csv_header_only_without_qualifying `{Externals} (w : World) (epoch : Z) :
  qualifying_params w = [] ->
  existsb (String.eqb (get_fname "weights_sparsity")) (fs_denied (w_fs w)) = false ->
  has_room 1 (fs_room (w_fs w)) ->
  CsvLogger.log_weights_sparsity epoch w
  = (Ok tt, file_written (get_fname "weights_sparsity") [CsvLogger.header] 1 w)
  /\ fst (TensorBoardLogger.log_weights_sparsity epoch w) = Raise ZeroDivisionError.
Proof.
  intros Hnone Hopen Hroom. split.
  - rewrite csv_log_weights_sparsity_ok; rewrite ?Hnone; auto.
  - pose proof (log_weights_sparsity_run epoch w) as Hrun. cbv zeta in Hrun.
    rewrite Hrun. unfold qualifying_params in Hnone.
    now rewrite (sparsity_fold_none _ Hnone).
Qed.

Lemma csv_header_only_without_qualifying_witness :
  (qualifying_params (fresh_world model_bias_only) = []
   /\ existsb (String.eqb (@get_fname sample_externals "weights_sparsity"))
              (fs_denied (w_fs (fresh_world model_bias_only))) = false
   /\ has_room 1 (fs_room (w_fs (fresh_world model_bias_only))))
  /\ @CsvLogger.log_weights_sparsity sample_externals 7 (fresh_world model_bias_only)
     = (Ok tt,
        file_written (@get_fname sample_externals "weights_sparsity")
                     [CsvLogger.header] 1 (fresh_world model_bias_only))
  /\ fst (@TensorBoardLogger.log_weights_sparsity sample_externals 7
            (fresh_world model_bias_only))
     = Raise ZeroDivisionError.
Proof.
  split; [split; [reflexivity | split; [reflexivity | exact I]]|].
  exact (@csv_header_only_without_qualifying sample_externals
           (fresh_world model_bias_only) 7 eq_refl eq_refl I).
Defined.

(** X8: [CsvLogger.log_weights_sparsity] does not use [epoch] for the
    file name and opens the file for writing anew: a second call, for
    whatever epoch, replaces what the first one wrote, so that after the
    two calls the files are as after one. *)
Theorem csv_second_call_overwrites `{Externals} (w : World) (epoch1 epoch2 : Z) :
  existsb (String.eqb (get_fname "weights_sparsity")) (fs_denied (w_fs w)) = false ->
  has_room (S (length (qualifying_params w)) + S (length (qualifying_params w)))
           (fs_room (w_fs w)) ->
  fst ((CsvLogger.log_weights_sparsity epoch1 ;;
        CsvLogger.log_weights_sparsity epoch2) w) = Ok tt
  /\ fs_files (w_fs (snd ((CsvLogger.log_weights_sparsity epoch1 ;;
                           CsvLogger.log_weights_sparsity epoch2) w)))
     = fs_files (w_fs (snd (CsvLogger.log_weights_sparsity epoch1 w))).
Proof.
  intros Hopen Hroom.
  assert (Hroom1 : has_room (S (length (qualifying_params w))) (fs_room (w_fs w))).
  { destruct (fs_room (w_fs w)); simpl in *; [lia | exact I]. }
  unfold bind. rewrite (csv_log_weights_sparsity_ok w epoch1 Hopen Hroom1).
  set (w' := file_written _ _ _ w).
  assert (Hq : qualifying_params w' = qualifying_params w) by reflexivity.
  rewrite (csv_log_weights_sparsity_ok w' epoch2).
  - rewrite Hq. unfold w'. rewrite file_written_twice. split; reflexivity.
  - exact Hopen.
  - rewrite Hq. unfold w', file_written, set_fs; simpl.
    destruct (fs_room (w_fs w)); simpl in *; [lia | exact I].
Qed.

Lemma csv_second_call_overwrites_witness :
  (existsb (String.eqb (@get_fname sample_externals "weights_sparsity"))
           (fs_denied (w_fs (fresh_world model_dense))) = false
   /\ has_room (S (length (qualifying_params (fresh_world model_dense)))
                + S (length (qualifying_params (fresh_world model_dense))))
               (fs_room (w_fs (fresh_world model_dense))))
  /\ fst ((@CsvLogger.log_weights_sparsity sample_externals 1 ;;
           @CsvLogger.log_weights_sparsity sample_externals 2)
            (fresh_world model_dense)) = Ok tt
  /\ fs_files (w_fs (snd ((@CsvLogger.log_weights_sparsity sample_externals 1 ;;
                           @CsvLogger.log_weights_sparsity sample_externals 2)
                            (fresh_world model_dense))))
     = fs_files (w_fs (snd (@CsvLogger.log_weights_sparsity sample_externals 1
                              (fresh_world model_dense)))).
Proof.
  split; [split; [reflexivity | exact I]|].
  exact (@csv_second_call_overwrites sample_externals (fresh_world model_dense) 1 2
           eq_refl I).
Defined.

Lemma writerow_cases path r w old :
  fs_files (w_fs w) !! path = Some old ->
  writerow path r w = (Raise OSError, w)
  \/ writerow path r w = (Ok tt, file_written path (old ++ [r]) 1 w).
Proof.
  intros Hl. destruct (fs_room (w_fs w)) as [[|n]|] eqn:Hroom.
  - left. unfold writerow. now rewrite Hroom.
  - right. apply writerow_ok; [exact Hl|]. rewrite Hroom. simpl. lia.
  - right. apply writerow_ok; [exact Hl|]. rewrite Hroom. exact I.
Qed.

Lemma firstn_app_cons {A} (old : list A) r m rest :
  (old ++ [r]) ++ firstn m rest = old ++ firstn (S m) (r :: rest).
Proof. rewrite <- app_assoc. reflexivity. Qed.

(** Whatever stops the loop, the file then holds what it held plus the
    first rows of the qualifying parameters. *)
Lemma csv_loop_prefix `{Externals} path items :
  forall acc w old,
    fs_files (w_fs w) !! path = Some old ->
    exists m,
      fs_files (w_fs (snd (for_each_acc items acc (CsvLogger.sparsity_step path) w)))
        !! path
      = Some (old ++ firstn m (map csv_row (List.filter qualifies items))).
Proof.
  induction items as [|np items IH]; intros acc w old Hl.
  - exists 0%nat. simpl. now rewrite app_nil_r.
  - cbn [for_each_acc List.filter]. unfold bind, CsvLogger.sparsity_step.
    change (dim_in (dim (snd np)) [2; 3; 4]%nat) with (qualifies np).
    destruct (qualifies np).
    + unfold bind. fold (csv_row np).
      destruct (writerow_cases path (csv_row np) w old Hl) as [Hw | Hw]; rewrite Hw.
      * exists 0%nat. simpl. now rewrite app_nil_r.
      * unfold ret. cbv beta iota.
        match goal with |- context [for_each_acc items ?a _ ?w'] =>
          destruct (IH a w' (old ++ [csv_row np])) as [m Hm] end.
        { unfold file_written, set_fs; simpl. apply lookup_insert_eq. }
        exists (S m). cbn [map]. rewrite <- firstn_app_cons. exact Hm.
    + unfold ret. apply IH. exact Hl.
Qed.

(** X9: a path that cannot be opened makes
    [CsvLogger.log_weights_sparsity] raise [OSError] and change nothing.
    Once the file is opened, what it held before is gone whether the call
    then returns or raises: the file holds the header and the rows of the
    qualifying parameters up to the point the call got to. *)
Theorem csv_file_after_any_outcome `{Externals} (w : World) (epoch : Z) :
  (existsb (String.eqb (get_fname "weights_sparsity")) (fs_denied (w_fs w)) = true ->
   CsvLogger.log_weights_sparsity epoch w = (Raise OSError, w))
  /\ (existsb (String.eqb (get_fname "weights_sparsity")) (fs_denied (w_fs w)) = false ->
      exists n,
        fs_files (w_fs (snd (CsvLogger.log_weights_sparsity epoch w)))
          !! get_fname "weights_sparsity"
        = Some (firstn n (CsvLogger.header :: map csv_row (qualifying_params w)))).
Proof.
  split; intros Hopen;
    unfold CsvLogger.log_weights_sparsity, with_open, open_w; rewrite Hopen;
    [reflexivity|].
  set (fname := get_fname "weights_sparsity").
  set (w1 := set_fs _ w).
  assert (Hl1 : fs_files (w_fs w1) !! fname = Some []).
  { unfold w1, set_fs; simpl. apply lookup_insert_eq. }
  unfold bind at 1.
  destruct (writerow_cases fname CsvLogger.header w1 [] Hl1) as [Hw | Hw]; rewrite Hw.
  - exists 0%nat. simpl. exact Hl1.
  - unfold bind at 1. unfold model_state_dict. unfold bind at 1.
    match goal with |- context [for_each_acc ?items ?a _ ?w'] =>
      destruct (csv_loop_prefix fname items a w' ([] ++ [CsvLogger.header])) as [m Hm];
      [ unfold file_written, set_fs; simpl; apply lookup_insert_eq |];
      destruct (for_each_acc items a (CsvLogger.sparsity_step fname) w')
        as [[acc'|e] w3] end;
      exists (S m); simpl in Hm |- *; exact Hm.
Qed.

(** ** Which modules [log_model_buffers] writes for *)

Lemma flat_map_nil {A B} (f : A -> list B) l :
  Forall (fun x => f x = []) l -> flat_map f l = [].
Proof.
  induction 1 as [|x l Hx _ IH]; simpl; [reflexivity|]. now rewrite Hx, IH.
Qed.

(** X11: [log_model_buffers] writes for leaf modules only, and at most
    once for each: every call it makes is an [add_scalars] call for a
    module without children from which at least one value was collected,
    under [tag_prefix/module_name] with those values; what a module with
    children holds in its own state is never logged. *)
Theorem log_model_buffers_only_leaves
    (buffer_names : list string) (tag_prefix : string)
    (epoch completed total freq : Z) (w : World) :
  (forall c,
     In c (written (TensorBoardLogger.log_model_buffers
                      buffer_names tag_prefix epoch completed total freq) w) ->
     exists module_name module,
       In (module_name, module) (leaves (w_model w))
       /\ collected (state_dict "" module) buffer_names <> []
       /\ c = add_scalars (join "/" [tag_prefix; module_name])
                          (collected (state_dict "" module) buffer_names)
                          (total * epoch + completed))
  /\ (length (written (TensorBoardLogger.log_model_buffers
                         buffer_names tag_prefix epoch completed total freq) w)
      <= length (leaves (w_model w)))%nat.
Proof.
  rewrite log_model_buffers_written. split; [intros c [] | simpl; lia].
Qed.

(** X10: when no leaf module holds any of the listed buffers, and so in
    particular when no buffer name is listed, [log_model_buffers] returns
    without an error and without writing: every lookup fails with
    [KeyError], which the method swallows. *)
Theorem log_model_buffers_nothing_found
    (buffer_names : list string) (tag_prefix : string)
    (epoch completed total freq : Z) (w : World) :
  Forall (fun nm =>
            Forall (fun buf_name =>
                      forall w', fst (getitem (state_dict "" (snd nm)) buf_name w')
                                 = Raise (KeyError buf_name)) buffer_names)
         (leaves (w_model w)) ->
  TensorBoardLogger.log_model_buffers buffer_names tag_prefix epoch completed total freq w
  = (Ok tt, w).
Proof.
  intros Hmissing. rewrite log_model_buffers_run.
  assert (Hnone : existsb (has_values buffer_names) (named_modules "" (w_model w))
                  = false).
  { apply not_true_is_false. intros Hex.
    apply existsb_exists in Hex. destruct Hex as [[name m] [Hnm Hv]].
    unfold has_values in Hv. cbn [snd] in Hv.
    apply andb_true_iff in Hv. destruct Hv as [Hleaf Hv].
    assert (Hin : In (name, m) (leaves (w_model w))).
    { unfold leaves. apply filter_In. split; [exact Hnm | exact Hleaf]. }
    rewrite List.Forall_forall in Hmissing.
    specialize (Hmissing _ Hin). cbn [snd] in Hmissing.
    assert (Hnil : collected (state_dict "" m) buffer_names = []).
    { unfold collected. apply flat_map_nil.
      apply List.Forall_forall. intros b Hb.
      rewrite List.Forall_forall in Hmissing. specialize (Hmissing b Hb w).
      rewrite getitem_lookup in Hmissing.
      destruct (sd_lookup (state_dict "" m) b); [discriminate | reflexivity]. }
    rewrite Hnil in Hv. discriminate. }
  now rewrite Hnone.
Qed.

Lemma log_model_buffers_nothing_found_witness :
  Forall (fun nm =>
            Forall (fun buf_name =>
                      forall w', fst (getitem (state_dict "" (snd nm)) buf_name w')
                                 = Raise (KeyError buf_name))
                   ["running_var"%string; "num_batches_tracked"%string])
         (leaves (w_model (fresh_world model_two_leaves)))
  /\ TensorBoardLogger.log_model_buffers
       ["running_var"%string; "num_batches_tracked"%string] "stats"%string
       3 4 10 0 (fresh_world model_two_leaves)
     = (Ok tt, fresh_world model_two_leaves).
Proof.
  assert (Hmissing :
    Forall (fun nm =>
              Forall (fun buf_name =>
                        forall w', fst (getitem (state_dict "" (snd nm)) buf_name w')
                                   = Raise (KeyError buf_name))
                     ["running_var"%string; "num_batches_tracked"%string])
           (leaves (w_model (fresh_world model_two_leaves)))).
  { repeat constructor. }
  split; [exact Hmissing|].
  exact (log_model_buffers_nothing_found
           ["running_var"%string; "num_batches_tracked"%string] "stats"%string
           3 4 10 0 (fresh_world model_two_leaves) Hmissing).
Defined.
